(** * cztery-de: the 4D geometry kernel, embedded and verified

    The development follows the two source files of the repository:
    - [src/shared/math4d.py]  (module [Math4d] below),
    - [src/backend/main.py]   (module [Backend] below),
    on top of a small model of the Python constructs they use (module [Py]).

    Data is modelled as the code has it:
    - a Python [float] is an IEEE 754 binary64 number, here Rocq's primitive
      [float] with the same format and rounding (round to nearest, ties to
      even); the integer literals [0] and [1] that the source writes in float
      positions are read as the floats [0.0] and [1.0], from which Python's
      arithmetic and [==] do not tell them apart;
    - a Python [int] is an unbounded integer, here [Z], with [&] as [Z.land]
      and [^] as [Z.lxor];
    - a Python [str] is a [string];
    - a tuple built by a literal or taken apart by unpacking is a Rocq tuple;
      a list, and a tuple that the code indexes or builds from a list, is a
      [list];
    - pydantic models are records, and the objects of class [Shape4D] live in
      a store of their own where a claim speaks of object identity;
    - an operation that can raise returns a [Py.result]. *)

From Stdlib Require Import ZArith List Bool String Ascii Lia Floats.
Import ListNotations.

Local Open Scope Z_scope.

(* ================================================================== *)
(** * The Python constructs used by the sources *)
(* ================================================================== *)

Module Py.

(** The exceptions that the modelled operations can raise. *)
Inductive exn : Type :=
| ZeroDivisionError
| IndexError
| ValueError.

Inductive result (A : Type) : Type :=
| Ok (a : A)
| Raise (e : exn).
Arguments Ok {A} a.
Arguments Raise {A} e.

Definition bind {A B : Type} (m : result A) (k : A -> result B) : result B :=
  match m with
  | Ok a => k a
  | Raise e => Raise e
  end.

(** [range(lo, hi)]: the integers [lo], [lo+1], ..., [hi-1]. *)
Definition range (lo hi : Z) : list Z :=
  map (fun k => lo + Z.of_nat k) (seq 0 (Z.to_nat (hi - lo))).

(** [for x in xs: body], the loop body acting on the loop's state. *)
Definition for_ {A S : Type} (xs : list A) (body : A -> S -> S) (s : S) : S :=
  fold_left (fun st x => body x st) xs s.

(** The same loop when the body can raise: the first exception leaves the
    loop. *)
Fixpoint for_m {A S : Type} (xs : list A) (body : A -> S -> result S) (s : S)
  : result S :=
  match xs with
  | [] => Ok s
  | x :: rest => bind (body x s) (for_m rest body)
  end.

(** Truth value of an [int] in a condition: non-zero. *)
Definition truthy (n : Z) : bool := negb (n =? 0).

(** [xs.append(x)]. *)
Definition append {A : Type} (xs : list A) (x : A) : list A := xs ++ [x].

(** [bin(n)]: ["0b"] followed by the binary digits, most significant first,
    with a leading ["-"] for a negative number. *)
Fixpoint bin_digits (p : positive) : string :=
  match p with
  | xH => "1"
  | xO q => bin_digits q ++ "0"
  | xI q => bin_digits q ++ "1"
  end%string.

Definition bin (n : Z) : string :=
  match n with
  | Z0 => "0b0"
  | Zpos p => "0b" ++ bin_digits p
  | Zneg p => "-0b" ++ bin_digits p
  end%string.

(** [s.count(c)] for a pattern [c] of one character: the number of
    positions of [s] that hold [c]. *)
Fixpoint str_count (c : ascii) (s : string) : Z :=
  match s with
  | EmptyString => 0
  | String a rest => (if Ascii.eqb a c then 1 else 0) + str_count c rest
  end.

(** [a / b] on floats: Python raises [ZeroDivisionError] when the divisor
    compares equal to zero (either sign), and otherwise returns the IEEE
    quotient (an overflow gives an infinity, no exception). *)
Definition truediv (a b : float) : result float :=
  if PrimFloat.eqb b 0%float then Raise ZeroDivisionError
  else Ok (PrimFloat.div a b).

(** [xs[i]]: a negative index counts from the end; out of range raises
    [IndexError]. *)
Definition norm_index {A : Type} (xs : list A) (i : Z) : option nat :=
  let n := Z.of_nat (List.length xs) in
  if (0 <=? i) && (i <? n) then Some (Z.to_nat i)
  else if (- n <=? i) && (i <? 0) then Some (Z.to_nat (n + i))
  else None.

Definition getitem {A : Type} (xs : list A) (i : Z) : result A :=
  match norm_index xs i with
  | Some k =>
      match nth_error xs k with
      | Some a => Ok a
      | None => Raise IndexError
      end
  | None => Raise IndexError
  end.

Fixpoint update {A : Type} (xs : list A) (k : nat) (a : A) : list A :=
  match xs, k with
  | [], _ => []
  | _ :: rest, O => a :: rest
  | b :: rest, S k' => b :: update rest k' a
  end.

(** [xs[i] = a] on a list. *)
Definition setitem {A : Type} (xs : list A) (i : Z) (a : A) : result (list A) :=
  match norm_index xs i with
  | Some k => Ok (update xs k a)
  | None => Raise IndexError
  end.

(** [xs == ys] on lists: same length and [==] element by element. *)
Fixpoint list_eqb {A : Type} (eqb : A -> A -> bool) (xs ys : list A) : bool :=
  match xs, ys with
  | [], [] => true
  | a :: xs', b :: ys' => eqb a b && list_eqb eqb xs' ys'
  | _, _ => false
  end.

End Py.

Notation "x <- m ;; k" := (Py.bind m (fun x => k))
  (at level 61, m at next level, right associativity).

(* ================================================================== *)
(** * src/shared/math4d.py *)
(* ================================================================== *)

Module Math4d.
Import Py.

Definition point4 : Type := float * float * float * float.
Definition point3 : Type := float * float * float.

(** [create_4d_cube_vertices(size)] *)
Definition create_4d_cube_vertices (size : float) : list point4 :=
  for_ (range 0 16) (fun i vertices =>
    let x := if truthy (Z.land i 1) then size else (- size)%float in
    let y := if truthy (Z.land i 2) then size else (- size)%float in
    let z := if truthy (Z.land i 4) then size else (- size)%float in
    let w := if truthy (Z.land i 8) then size else (- size)%float in
    append vertices (x, y, z, w)) [].

(** [create_4d_cube_edges()] *)
Definition create_4d_cube_edges : list (Z * Z) :=
  for_ (range 0 16) (fun i edges =>
    for_ (range (i + 1) 16) (fun j edges =>
      let diff := Z.lxor i j in
      if str_count "1" (bin diff) =? 1 then append edges (i, j) else edges)
      edges) [].

(** [project_4d_to_3d(point, distance)] *)
Definition project_4d_to_3d (point : point4) (distance : float) : result point3 :=
  let '(x, y, z, w) := point in
  factor <- truediv distance (distance - w)%float ;;
  Ok (x * factor, y * factor, z * factor)%float.

(** [math.cos] and [math.sin] belong to Python's standard library, outside
    the repository: the matrix builders take them as parameters. A call
    either returns a float or raises (Python's two functions raise
    [ValueError] at an infinite argument); an exception leaves the builder
    at the call that raised it. *)
Section Rotations.
Variables cos sin : float -> result float.

(** [rotation_matrix_4d_xy(angle)] *)
Definition rotation_matrix_4d_xy (angle : float) : result (list (list float)) :=
  c <- cos angle ;;
  s <- sin angle ;;
  Ok [ [c; - s; 0; 0];
       [s; c; 0; 0];
       [0; 0; 1; 0];
       [0; 0; 0; 1] ]%float.

(** [rotation_matrix_4d_xz(angle)] *)
Definition rotation_matrix_4d_xz (angle : float) : result (list (list float)) :=
  c <- cos angle ;;
  s <- sin angle ;;
  Ok [ [c; 0; - s; 0];
       [0; 1; 0; 0];
       [s; 0; c; 0];
       [0; 0; 0; 1] ]%float.

(** [rotation_matrix_4d_xw(angle)] *)
Definition rotation_matrix_4d_xw (angle : float) : result (list (list float)) :=
  c <- cos angle ;;
  s <- sin angle ;;
  Ok [ [c; 0; 0; - s];
       [0; 1; 0; 0];
       [0; 0; 1; 0];
       [s; 0; 0; c] ]%float.

End Rotations.

(** [matrix_multiply_4d(matrix, vector)]: the loops update the local list
    [result] in place; [result[i] += e] reads [result[i]], evaluates [e],
    adds and stores. The final [tuple(result)] keeps the four elements. *)
Definition matrix_multiply_4d (matrix : list (list float)) (vector : list float)
  : result (list float) :=
  let result := [0; 0; 0; 0]%float in
  for_m (range 0 4) (fun i result =>
    for_m (range 0 4) (fun j result =>
      old <- getitem result i ;;
      row <- getitem matrix i ;;
      m_ij <- getitem row j ;;
      v_j <- getitem vector j ;;
      setitem result i (old + m_ij * v_j)%float) result) result.

(** The test of the inner loop of [create_4d_cube_edges], under a name. *)
Definition one_bit_apart (i j : Z) : bool :=
  str_count "1" (bin (Z.lxor i j)) =? 1.

End Math4d.

(* ================================================================== *)
(** * src/backend/main.py *)
(* ================================================================== *)

Module Backend.
Import Py.

(** [class Vector4D(BaseModel)] *)
Record Vector4D : Type := mkVector4D {
  x : float;
  y : float;
  z : float;
  w : float
}.

(** [class Shape4D(BaseModel)]; [edges] holds lists [[i, j]] of vertex
    indices. *)
Record Shape4D : Type := mkShape4D {
  vertices : list Vector4D;
  edges : list (list Z);
  position : Vector4D
}.

(** [class Transform4D(BaseModel)] *)
Record Transform4D : Type := mkTransform4D {
  rotation_xy : float;
  rotation_xz : float;
  rotation_xw : float;
  rotation_yz : float;
  rotation_yw : float;
  rotation_zw : float;
  translation : Vector4D
}.

(** The default of the fields [position] and [translation]:
    [Vector4D(x=0, y=0, z=0, w=0)]. *)
Definition zero_vector : Vector4D :=
  {| x := 0; y := 0; z := 0; w := 0 |}%float.

(** [Transform4D()], every field at its default. *)
Definition identity_transform : Transform4D :=
  {| rotation_xy := 0; rotation_xz := 0; rotation_xw := 0;
     rotation_yz := 0; rotation_yw := 0; rotation_zw := 0;
     translation := zero_vector |}%float.

(** [create_4d_cube(size)] *)
Definition create_4d_cube (size : float) : Shape4D :=
  let vertices :=
    for_ (range 0 16) (fun i vertices =>
      let x := if truthy (Z.land i 1) then size else (- size)%float in
      let y := if truthy (Z.land i 2) then size else (- size)%float in
      let z := if truthy (Z.land i 4) then size else (- size)%float in
      let w := if truthy (Z.land i 8) then size else (- size)%float in
      append vertices {| x := x; y := y; z := z; w := w |}) [] in
  let edges :=
    for_ (range 0 16) (fun i edges =>
      for_ (range (i + 1) 16) (fun j edges =>
        let diff := Z.lxor i j in
        if str_count "1" (bin diff) =? 1 then append edges [i; j] else edges)
        edges) [] in
  {| vertices := vertices; edges := edges; position := zero_vector |}.

(** [apply_transform(shape, transform)] *)
Definition apply_transform (shape : Shape4D) (transform : Transform4D) : Shape4D :=
  {| vertices := vertices shape;
     edges := edges shape;
     position :=
       {| x := x (position shape) + x (translation transform);
          y := y (position shape) + y (translation transform);
          z := z (position shape) + z (translation transform);
          w := w (position shape) + w (translation transform) |}%float |}.

(** ** Shape objects

    A [Shape4D] argument is a reference to an object. The store holds the
    [Shape4D] objects alive; calling the class [Shape4D(...)] puts a new
    object in the store and returns its reference. *)
Definition ref : Type := nat.
Definition store : Type := list Shape4D.

Definition deref (st : store) (r : ref) : option Shape4D := nth_error st r.

Definition new_Shape4D (st : store) (s : Shape4D) : store * ref :=
  (st ++ [s], List.length st).

(** [apply_transform] on references: reads the fields of the argument,
    builds the result with [Shape4D(...)]. [None] stands for a reference to
    no object, which a Python caller cannot hold. *)
Definition apply_transform_obj (st : store) (shape : ref) (transform : Transform4D)
  : option (store * ref) :=
  match deref st shape with
  | Some s => Some (new_Shape4D st (apply_transform s transform))
  | None => None
  end.

End Backend.

(* ================================================================== *)
(** * The notions the specification speaks of *)
(* ================================================================== *)

Module Spec.
Import Py.

(** The coordinate that bit [k] of the vertex number [i] selects. *)
Definition coord (size : float) (i k : Z) : float :=
  if Z.testbit i k then size else (- size)%float.

(** Vertex number [i] of the hypercube: bit 0 gives x, bit 1 y, bit 2 z,
    bit 3 w. *)
Definition cube_vertex (size : float) (i : Z) : Math4d.point4 :=
  (coord size i 0, coord size i 1, coord size i 2, coord size i 3).

(** Hamming weight of a non-negative integer: how many of its bits are set,
    counted over the positions up to its highest set bit. *)
Definition hamming_weight (n : Z) : Z :=
  Z.of_nat (List.length (filter (Z.testbit n) (range 0 (Z.log2 n + 1)))).

(** The edges [[i, j]] of a list that touch vertex [v], and their number. *)
Definition incident (v : Z) (e : list Z) : bool := existsb (Z.eqb v) e.

Definition degree (es : list (list Z)) (v : Z) : Z :=
  Z.of_nat (List.length (filter (incident v) es)).

(** An edge is well formed for [n] vertices when it is a pair [[i, j]] with
    [0 <= i < j < n]. *)
Definition edge_ok (n : Z) (e : list Z) : bool :=
  match e with
  | [i; j] => (0 <=? i) && (i <? j) && (j <? n)
  | _ => false
  end.

Definition edges_valid (s : Backend.Shape4D) : bool :=
  forallb (edge_ok (Z.of_nat (List.length (Backend.vertices s)))) (Backend.edges s).

(** The components of a [Vector4D], as the tuple of the shared module. *)
Definition components (v : Backend.Vector4D) : Math4d.point4 :=
  (Backend.x v, Backend.y v, Backend.z v, Backend.w v).

(** The pair [(i, j)] of the shared module as the list [[i, j]] of the
    backend. *)
Definition pair_list (e : Z * Z) : list Z := [fst e; snd e].

(** Entry [(i, j)] of the rotation by the block [[c, -s], [s, c]] in the
    plane of the axes [a] and [b]: the block at the rows and columns [a] and
    [b], the identity matrix elsewhere. *)
Definition plane_rotation (a b : nat) (c s : float) (i j : nat) : float :=
  if (i =? a)%nat && (j =? a)%nat then c
  else if (i =? a)%nat && (j =? b)%nat then (- s)%float
  else if (i =? b)%nat && (j =? a)%nat then s
  else if (i =? b)%nat && (j =? b)%nat then c
  else if (i =? j)%nat then 1%float
  else 0%float.

(** The 4x4 matrix, as a list of rows, with the given entries. *)
Definition matrix4 (entry : nat -> nat -> float) : list (list float) :=
  map (fun i => map (entry i) (seq 0 4)) (seq 0 4).

Definition identity4 : list (list float) :=
  matrix4 (fun i j => if (i =? j)%nat then 1%float else 0%float).

(** [==] on matrices of floats. *)
Definition matrix_eqb (m1 m2 : list (list float)) : bool :=
  list_eqb (list_eqb PrimFloat.eqb) m1 m2.

(** The sum over [j] in [[0, n)] of [f j], added in the order of [j] from
    zero. *)
Definition sigma (n : nat) (f : nat -> float) : float :=
  fold_left (fun acc j => (acc + f j)%float) (seq 0 n) 0%float.

(** Entry [(i, j)] of a matrix and component [j] of a vector, zero outside. *)
Definition entry (m : list (list float)) (i j : nat) : float :=
  nth j (nth i m []) 0%float.

Definition component (v : list float) (j : nat) : float := nth j v 0%float.

(** A float that stands for a real number: neither an infinity nor a NaN. *)
Definition real_valued (a : float) : bool := is_finite a.

(** Two floats hold the same value: they compare equal (the two zeros do),
    or both are NaN. *)
Definition same_value (a b : float) : bool :=
  PrimFloat.eqb a b || (is_nan a && is_nan b).

Definition same_vector (u v : Backend.Vector4D) : bool :=
  same_value (Backend.x u) (Backend.x v) &&
  same_value (Backend.y u) (Backend.y v) &&
  same_value (Backend.z u) (Backend.z v) &&
  same_value (Backend.w u) (Backend.w v).

(** A coordinate [a] that comes back as [b] is kept when [b] is [a] itself,
    or [a] is [-0.0] and [b] is [0.0]. *)
Definition kept (a b : float) : Prop :=
  b = a \/ (a = (-0)%float /\ b = 0%float).

(** The two classes of IEEE values that the proofs about the projection
    tell apart, on the specification [spec_float] of a float. *)
Definition sf_is_zero (a : spec_float) : bool :=
  match a with
  | S754_zero _ => true
  | _ => false
  end.

Definition sf_is_finite (a : spec_float) : bool :=
  match a with
  | S754_zero _ | S754_finite _ _ _ => true
  | _ => false
  end.

End Spec.

(* ================================================================== *)
(** * Sample inputs *)
(* ================================================================== *)

Module Sample.

(** Polynomial stand-ins for [math.cos] and [math.sin], exact at zero. *)
Definition cos_poly (a : float) : float :=
  (1 - a * a / 2 + a * a * a * a / 24)%float.

Definition sin_poly (a : float) : float :=
  (a - a * a * a / 6)%float.

(** Stand-ins for the calls [math.cos(a)] and [math.sin(a)]: [ValueError]
    at an infinite argument, the polynomial elsewhere. *)
Definition math_cos (a : float) : Py.result float :=
  if is_infinity a then Py.Raise Py.ValueError else Py.Ok (cos_poly a).

Definition math_sin (a : float) : Py.result float :=
  if is_infinity a then Py.Raise Py.ValueError else Py.Ok (sin_poly a).

(** A transform with every rotation angle set and the translation
    (1, 2, 3, 4). *)
Definition transform : Backend.Transform4D :=
  {| Backend.rotation_xy := 0.5; Backend.rotation_xz := 1;
     Backend.rotation_xw := 1.5; Backend.rotation_yz := 2;
     Backend.rotation_yw := 2.5; Backend.rotation_zw := 3;
     Backend.translation :=
       {| Backend.x := 1; Backend.y := 2; Backend.z := 3; Backend.w := 4 |}
  |}%float.

(** The unit hypercube, at the origin. *)
Definition shape : Backend.Shape4D := Backend.create_4d_cube 1%float.

(** A store that holds the one object [shape], at reference 0. *)
Definition store : Backend.store := [shape].

Definition matrix : list (list float) :=
  [ [1; 2; 3; 4]; [5; 6; 7; 8]; [0; 1; 0; 0]; [0.5; 0; 0; 2] ]%float.

Definition vector : list float := [1; 0.5; 2; 4]%float.

End Sample.

(* ================================================================== *)
(** * src/backend/main.py: the request handlers

    The bodies of the two handlers that call the geometry functions; the
    parsing of the request and the serialization of the response are
    FastAPI's. *)
(* ================================================================== *)

Module Api.

(** [async def get_4d_cube(size)], the handler of [GET /shapes/cube]. *)
Definition get_4d_cube (size : float) : Backend.Shape4D :=
  Backend.create_4d_cube size.

(** [async def transform_shape(shape, transform)], the handler of
    [POST /shapes/transform]. *)
Definition transform_shape (shape : Backend.Shape4D)
           (transform : Backend.Transform4D) : Backend.Shape4D :=
  Backend.apply_transform shape transform.

End Api.

(* ================================================================== *)
(** * Notions for the further properties *)
(* ================================================================== *)

Module Notions.

(** A float's value with the sign of a zero forgotten: [0.0] and [-0.0] are
    one value. *)
Definition sf_norm (a : spec_float) : spec_float :=
  match a with
  | S754_zero _ => S754_zero false
  | v => v
  end.

(** The shape that [matrix_multiply_4d] needs. *)
Definition shape_ok (matrix : list (list float)) (vector : list float) : bool :=
  (4 <=? List.length matrix)%nat &&
  forallb (fun row => (4 <=? List.length row)%nat) (firstn 4 matrix) &&
  (4 <=? List.length vector)%nat.

Definition product4 (matrix : list (list float)) (vector : list float) : list float :=
  map (fun i => Spec.sigma 4 (fun j =>
         (Spec.entry matrix i j * Spec.component vector j)%float))
      (seq 0 4).

(** Negation of the three coordinates of a projected point. *)
Definition neg3 (p : Math4d.point3) : Math4d.point3 :=
  let '(x, y, z) := p in (- x, - y, - z)%float.

(** A function applied to the value that an operation returns, an exception
    passing through. *)
Definition result_map {A B : Type} (f : A -> B) (r : Py.result A) : Py.result B :=
  match r with
  | Py.Ok a => Py.Ok (f a)
  | Py.Raise e => Py.Raise e
  end.

(** [p == q] on tuples of four floats. *)
Definition point_eqb (p q : Math4d.point4) : bool :=
  let '(x1, y1, z1, w1) := p in
  let '(x2, y2, z2, w2) := q in
  PrimFloat.eqb x1 x2 && PrimFloat.eqb y1 y2 &&
  PrimFloat.eqb z1 z2 && PrimFloat.eqb w1 w2.

(** The coordinate of a point on axis [k]: 0 for x, 1 for y, 2 for z and
    3 for w. *)
Definition axis (k : nat) (p : Math4d.point4) : float :=
  let '(x, y, z, w) := p in
  match k with
  | 0%nat => x
  | 1%nat => y
  | 2%nat => z
  | _ => w
  end.

(** The operation returned a value. *)
Definition returns {A : Type} (r : Py.result A) : bool :=
  match r with
  | Py.Ok _ => true
  | Py.Raise _ => false
  end.

End Notions.

(* ================================================================== *)
(** * Loops, ranges and bits *)
(* ================================================================== *)

Section Loops.
Context {A B : Type}.

(** A loop that appends one element per iteration builds a [map]. *)
Lemma for_append_map (f : A -> B) (xs : list A) (init : list B) :
  Py.for_ xs (fun x acc => Py.append acc (f x)) init = init ++ map f xs.
Proof.
  unfold Py.for_, Py.append. revert init.
  induction xs as [|a xs IH]; intros init; simpl.
  - now rewrite app_nil_r.
  - rewrite IH, <- app_assoc. reflexivity.
Qed.

(** A loop that appends under a condition builds a [filter]. *)
Lemma for_append_filter (p : A -> bool) (f : A -> B) (xs : list A) (init : list B) :
  Py.for_ xs (fun x acc => if p x then Py.append acc (f x) else acc) init
  = init ++ map f (filter p xs).
Proof.
  unfold Py.for_, Py.append. revert init.
  induction xs as [|a xs IH]; intros init; simpl.
  - now rewrite app_nil_r.
  - rewrite IH. destruct (p a); simpl.
    + now rewrite <- app_assoc.
    + reflexivity.
Qed.

(** A loop whose body extends the accumulator builds a [flat_map]. *)
Lemma for_extend_flat_map (body : A -> list B -> list B) (g : A -> list B)
      (xs : list A) (init : list B) :
  (forall a acc, body a acc = acc ++ g a) ->
  Py.for_ xs body init = init ++ flat_map g xs.
Proof.
  intros Hbody. unfold Py.for_. revert init.
  induction xs as [|a xs IH]; intros init; simpl.
  - now rewrite app_nil_r.
  - rewrite IH, Hbody, <- app_assoc. reflexivity.
Qed.

End Loops.

Lemma in_range (lo hi k : Z) : In k (Py.range lo hi) <-> lo <= k < hi.
Proof.
  unfold Py.range. rewrite in_map_iff. split.
  - intros [n [<- Hn]]. apply in_seq in Hn. lia.
  - intros H. exists (Z.to_nat (k - lo)). split; [lia|].
    apply in_seq. lia.
Qed.

Lemma range_length (lo hi : Z) :
  List.length (Py.range lo hi) = Z.to_nat (hi - lo).
Proof. unfold Py.range. now rewrite length_map, length_seq. Qed.

(** The test [i & 2^k] of the source reads bit [k] of [i]. *)
Lemma truthy_land_pow2 (i k : Z) :
  0 <= k -> Py.truthy (Z.land i (2 ^ k)) = Z.testbit i k.
Proof.
  intros Hk. unfold Py.truthy.
  destruct (Z.testbit i k) eqn:Hbit.
  - apply negb_true_iff, Z.eqb_neq. intros H0.
    assert (Hk' : Z.testbit (Z.land i (2 ^ k)) k = true)
      by (rewrite Z.land_spec, Hbit, Z.pow2_bits_true; auto).
    rewrite H0, Z.testbit_0_l in Hk'. discriminate.
  - apply negb_false_iff, Z.eqb_eq. apply Z.bits_inj'. intros n Hn.
    rewrite Z.land_spec, Z.testbit_0_l.
    destruct (Z.eq_dec n k) as [->|Hne].
    + now rewrite Hbit.
    + rewrite Z.pow2_bits_false by auto. apply andb_false_r.
Qed.

Lemma source_vertex_is_cube_vertex (size : float) (i : Z) :
  ((if Py.truthy (Z.land i 1) then size else (- size)%float),
   (if Py.truthy (Z.land i 2) then size else (- size)%float),
   (if Py.truthy (Z.land i 4) then size else (- size)%float),
   (if Py.truthy (Z.land i 8) then size else (- size)%float))
  = Spec.cube_vertex size i.
Proof.
  unfold Spec.cube_vertex, Spec.coord.
  rewrite <- (truthy_land_pow2 i 0), <- (truthy_land_pow2 i 1),
          <- (truthy_land_pow2 i 2), <- (truthy_land_pow2 i 3) by lia.
  reflexivity.
Qed.

Lemma shared_vertices_map (size : float) :
  Math4d.create_4d_cube_vertices size = map (Spec.cube_vertex size) (Py.range 0 16).
Proof.
  unfold Math4d.create_4d_cube_vertices.
  rewrite (for_append_map (fun i =>
    ((if Py.truthy (Z.land i 1) then size else (- size)%float),
     (if Py.truthy (Z.land i 2) then size else (- size)%float),
     (if Py.truthy (Z.land i 4) then size else (- size)%float),
     (if Py.truthy (Z.land i 8) then size else (- size)%float)))).
  rewrite app_nil_l. apply map_ext. intros i. apply source_vertex_is_cube_vertex.
Qed.

Lemma backend_vertices_map (size : float) :
  map Spec.components (Backend.vertices (Backend.create_4d_cube size))
  = map (Spec.cube_vertex size) (Py.range 0 16).
Proof.
  unfold Backend.create_4d_cube. cbn [Backend.vertices].
  rewrite (for_append_map (fun i =>
    {| Backend.x := if Py.truthy (Z.land i 1) then size else (- size)%float;
       Backend.y := if Py.truthy (Z.land i 2) then size else (- size)%float;
       Backend.z := if Py.truthy (Z.land i 4) then size else (- size)%float;
       Backend.w := if Py.truthy (Z.land i 8) then size else (- size)%float |})).
  rewrite app_nil_l. rewrite map_map. apply map_ext. intros i.
  unfold Spec.components. cbn [Backend.x Backend.y Backend.z Backend.w].
  apply source_vertex_is_cube_vertex.
Qed.

Lemma getitem_map_range {T : Type} (f : Z -> T) (n i : Z) :
  0 <= i < n -> Py.getitem (map f (Py.range 0 n)) i = Py.Ok (f i).
Proof.
  intros Hi. unfold Py.getitem, Py.norm_index.
  rewrite length_map, range_length.
  replace ((0 <=? i) && (i <? Z.of_nat (Z.to_nat (n - 0)))) with true
    by (symmetry; apply andb_true_iff; split; [apply Z.leb_le|apply Z.ltb_lt]; lia).
  rewrite nth_error_map. unfold Py.range. rewrite nth_error_map.
  rewrite nth_error_seq.
  replace (Z.to_nat i <? Z.to_nat (n - 0))%nat with true
    by (symmetry; apply Nat.ltb_lt; lia).
  simpl. f_equal. f_equal. lia.
Qed.

(* ================================================================== *)
(** * Counting set bits: [bin(n).count('1')] is the Hamming weight *)
(* ================================================================== *)

Lemma str_count_app (c : ascii) (s t : string) :
  Py.str_count c (s ++ t) = Py.str_count c s + Py.str_count c t.
Proof.
  induction s as [|a s IH]; simpl.
  - reflexivity.
  - rewrite IH. lia.
Qed.

Lemma range_succ (n : Z) :
  0 <= n -> Py.range 0 (Z.succ n) = 0 :: map Z.succ (Py.range 0 n).
Proof.
  intros Hn. unfold Py.range.
  replace (Z.to_nat (Z.succ n - 0)) with (S (Z.to_nat (n - 0))) by lia.
  cbn [seq map]. f_equal.
  rewrite <- seq_shift, !map_map. apply map_ext. intros k. lia.
Qed.

Lemma filter_map_length {T U : Type} (p : U -> bool) (f : T -> U) (xs : list T) :
  List.length (filter p (map f xs)) = List.length (filter (fun a => p (f a)) xs).
Proof.
  induction xs as [|a xs IH]; simpl.
  - reflexivity.
  - destruct (p (f a)); simpl; now rewrite IH.
Qed.

Lemma filter_ext_range (p q : Z -> bool) (lo hi : Z) :
  (forall k, lo <= k < hi -> p k = q k) ->
  filter p (Py.range lo hi) = filter q (Py.range lo hi).
Proof.
  intros H. apply filter_ext_in. intros k Hk. apply H, in_range, Hk.
Qed.

(** The bits of [2p] and [2p+1] above bit 0 are the bits of [p]. *)
Lemma set_bits_double (p : positive) (b : bool) (n : Z) :
  0 <= n ->
  List.length (filter (Z.testbit (2 * Z.pos p + Z.b2z b)) (Py.range 0 (Z.succ n)))
  = (Nat.b2n b + List.length (filter (Z.testbit (Z.pos p)) (Py.range 0 n)))%nat.
Proof.
  intros Hn. rewrite range_succ by assumption. cbn [filter].
  rewrite Z.testbit_0_r.
  assert (Htail :
    List.length (filter (Z.testbit (2 * Z.pos p + Z.b2z b)) (map Z.succ (Py.range 0 n)))
    = List.length (filter (Z.testbit (Z.pos p)) (Py.range 0 n))).
  { rewrite filter_map_length. f_equal. apply filter_ext_range.
    intros k Hk. apply Z.testbit_succ_r. lia. }
  destruct b; cbn [Nat.b2n List.length]; rewrite Htail; reflexivity.
Qed.

Lemma bin_digits_count (p : positive) :
  Py.str_count "1" (Py.bin_digits p)
  = Z.of_nat (List.length (filter (Z.testbit (Z.pos p)) (Py.range 0 (Z.pos (Pos.size p))))).
Proof.
  induction p as [q IH|q IH|].
  - cbn [Py.bin_digits Pos.size]. rewrite str_count_app, IH.
    rewrite Pos2Z.inj_succ.
    change (Z.pos q~1) with (2 * Z.pos q + Z.b2z true).
    rewrite set_bits_double by lia. cbn. lia.
  - cbn [Py.bin_digits Pos.size]. rewrite str_count_app, IH.
    rewrite Pos2Z.inj_succ.
    replace (Z.pos q~0) with (2 * Z.pos q + Z.b2z false) by (cbn; lia).
    rewrite set_bits_double by lia. cbn. lia.
  - reflexivity.
Qed.

Lemma log2_size (p : positive) : Z.log2 (Z.pos p) + 1 = Z.pos (Pos.size p).
Proof. destruct p; cbn [Z.log2 Pos.size]; lia. Qed.

(** What the source computes with [bin(diff).count('1')]. *)
Lemma bin_count_hamming (n : Z) :
  0 <= n -> Py.str_count "1" (Py.bin n) = Spec.hamming_weight n.
Proof.
  intros Hn. unfold Spec.hamming_weight. destruct n as [|p|p].
  - reflexivity.
  - rewrite log2_size. cbn [Py.bin]. rewrite str_count_app, bin_digits_count.
    reflexivity.
  - lia.
Qed.

(* ================================================================== *)
(** * The edge loops *)
(* ================================================================== *)

Section EdgeLoops.
Context {E : Type}.
Variable mk : Z -> Z -> E.

Lemma edge_loops_flat_map (n : Z) :
  Py.for_ (Py.range 0 n) (fun i edges =>
    Py.for_ (Py.range (i + 1) n) (fun j edges =>
      let diff := Z.lxor i j in
      if Py.str_count "1" (Py.bin diff) =? 1 then Py.append edges (mk i j) else edges)
      edges) []
  = flat_map (fun i => map (mk i) (filter (Math4d.one_bit_apart i) (Py.range (i + 1) n)))
             (Py.range 0 n).
Proof.
  rewrite (for_extend_flat_map _
    (fun i => map (mk i) (filter (Math4d.one_bit_apart i) (Py.range (i + 1) n)))).
  - reflexivity.
  - intros i acc. cbv zeta.
    apply (for_append_filter (Math4d.one_bit_apart i) (mk i)).
Qed.

Lemma in_edge_loops (n : Z) (e : E) :
  In e (flat_map (fun i => map (mk i) (filter (Math4d.one_bit_apart i) (Py.range (i + 1) n)))
                 (Py.range 0 n))
  <-> exists i j, e = mk i j /\ 0 <= i /\ i < j /\ j < n
                  /\ Spec.hamming_weight (Z.lxor i j) = 1.
Proof.
  rewrite in_flat_map. split.
  - intros [i [Hi He]]. apply in_map_iff in He as [j [<- Hj]].
    apply filter_In in Hj as [Hj Hbit].
    apply in_range in Hi. apply in_range in Hj.
    exists i, j. repeat split; try lia.
    rewrite <- bin_count_hamming by (apply Z.lxor_nonneg; lia).
    apply Z.eqb_eq, Hbit.
  - intros [i [j [-> [Hi [Hij [Hj Hw]]]]]].
    exists i. split; [apply in_range; lia|].
    apply in_map. apply filter_In. split; [apply in_range; lia|].
    unfold Math4d.one_bit_apart. apply Z.eqb_eq.
    rewrite bin_count_hamming by (apply Z.lxor_nonneg; lia). exact Hw.
Qed.

End EdgeLoops.

Lemma map_flat_map {T U V : Type} (f : U -> V) (g : T -> list U) (l : list T) :
  map f (flat_map g l) = flat_map (fun a => map f (g a)) l.
Proof.
  induction l as [|a l IH]; simpl.
  - reflexivity.
  - now rewrite map_app, IH.
Qed.

Lemma shared_edges_flat_map :
  Math4d.create_4d_cube_edges
  = flat_map (fun i => map (pair i) (filter (Math4d.one_bit_apart i) (Py.range (i + 1) 16)))
             (Py.range 0 16).
Proof. apply (edge_loops_flat_map pair). Qed.

Lemma backend_edges_flat_map (size : float) :
  Backend.edges (Backend.create_4d_cube size)
  = flat_map (fun i => map (fun j => [i; j]) (filter (Math4d.one_bit_apart i) (Py.range (i + 1) 16)))
             (Py.range 0 16).
Proof. apply (edge_loops_flat_map (fun i j => [i; j])). Qed.

Lemma backend_edges_shared (size : float) :
  Backend.edges (Backend.create_4d_cube size)
  = map Spec.pair_list Math4d.create_4d_cube_edges.
Proof.
  rewrite backend_edges_flat_map, shared_edges_flat_map, map_flat_map.
  apply flat_map_ext. intros i. rewrite map_map. reflexivity.
Qed.

Lemma in_backend_edges (size : float) (e : list Z) :
  In e (Backend.edges (Backend.create_4d_cube size))
  <-> exists i j, e = [i; j] /\ 0 <= i /\ i < j /\ j < 16
                  /\ Spec.hamming_weight (Z.lxor i j) = 1.
Proof. rewrite backend_edges_flat_map. apply in_edge_loops. Qed.

Lemma in_shared_edges (e : Z * Z) :
  In e Math4d.create_4d_cube_edges
  <-> exists i j, e = (i, j) /\ 0 <= i /\ i < j /\ j < 16
                  /\ Spec.hamming_weight (Z.lxor i j) = 1.
Proof. rewrite shared_edges_flat_map. apply in_edge_loops. Qed.

Lemma backend_vertices_length (size : float) :
  List.length (Backend.vertices (Backend.create_4d_cube size)) = 16%nat.
Proof.
  rewrite <- (length_map Spec.components), backend_vertices_map, length_map.
  apply range_length.
Qed.

Lemma NoDup_by_nodup {T : Type} (dec : forall a b : T, {a = b} + {a <> b}) (l : list T) :
  nodup dec l = l -> NoDup l.
Proof. intros H. rewrite <- H. apply NoDup_nodup. Qed.

Lemma backend_edges_NoDup (size : float) :
  NoDup (Backend.edges (Backend.create_4d_cube size)).
Proof.
  apply (NoDup_by_nodup (list_eq_dec Z.eq_dec)). vm_compute. reflexivity.
Qed.

Lemma shared_edges_NoDup : NoDup Math4d.create_4d_cube_edges.
Proof.
  apply (NoDup_map_inv Spec.pair_list).
  rewrite <- (backend_edges_shared 1%float). apply backend_edges_NoDup.
Qed.

(* ================================================================== *)
(** * Hypercube generation *)
(* ================================================================== *)

(** C1. For every size, hypercube generation produces exactly 16 vertices,
    one per integer [i] in [[0,16)] and in that order: vertex [i] has the
    coordinate [+size] on the x axis when bit 0 of [i] is set and [-size]
    otherwise, and likewise bit 1 for y, bit 2 for z and bit 3 for w. This
    holds of the vertices of the backend's [create_4d_cube] and of the
    shared module's [create_4d_cube_vertices]; indexing either list at [i]
    gives the vertex of [i]. *)
Theorem hypercube_vertices (size : float) :
  List.length (Backend.vertices (Backend.create_4d_cube size)) = 16%nat /\
  List.length (Math4d.create_4d_cube_vertices size) = 16%nat /\
  map Spec.components (Backend.vertices (Backend.create_4d_cube size))
    = map (Spec.cube_vertex size) (Py.range 0 16) /\
  Math4d.create_4d_cube_vertices size
    = map (Spec.cube_vertex size) (Py.range 0 16) /\
  Forall (fun i =>
      Py.getitem (map Spec.components
                    (Backend.vertices (Backend.create_4d_cube size))) i
        = Py.Ok (Spec.cube_vertex size i) /\
      Py.getitem (Math4d.create_4d_cube_vertices size) i
        = Py.Ok (Spec.cube_vertex size i))
    (Py.range 0 16).
Proof.
  split; [apply backend_vertices_length|].
  split; [rewrite shared_vertices_map, length_map; apply range_length|].
  split; [apply backend_vertices_map|].
  split; [apply shared_vertices_map|].
  apply Forall_forall. intros i Hi. apply in_range in Hi.
  rewrite backend_vertices_map, shared_vertices_map.
  split; apply getitem_map_range; exact Hi.
Qed.

(** C2. For every size (positive or not), the edges that hypercube
    generation produces are exactly the pairs [[i, j]] with
    [0 <= i < j < 16] whose numbers differ in one bit (the Hamming weight of
    [i XOR j] is 1), each once; there are 32 of them, on 16 vertices, and
    each of the vertices 0..15 is incident to exactly 4 edges. The same
    pairs make the shared module's [create_4d_cube_edges]. *)
Theorem hypercube_edges (size : float) :
  (forall i j,
      In [i; j] (Backend.edges (Backend.create_4d_cube size))
      <-> 0 <= i /\ i < j /\ j < 16 /\ Spec.hamming_weight (Z.lxor i j) = 1) /\
  (forall i j,
      In (i, j) Math4d.create_4d_cube_edges
      <-> 0 <= i /\ i < j /\ j < 16 /\ Spec.hamming_weight (Z.lxor i j) = 1) /\
  NoDup (Backend.edges (Backend.create_4d_cube size)) /\
  List.length (Backend.edges (Backend.create_4d_cube size)) = 32%nat /\
  List.length Math4d.create_4d_cube_edges = 32%nat /\
  List.length (Backend.vertices (Backend.create_4d_cube size)) = 16%nat /\
  Forall (fun v => Spec.degree (Backend.edges (Backend.create_4d_cube size)) v = 4)
         (Py.range 0 16).
Proof.
  split.
  { intros i j. rewrite in_backend_edges. split.
    - intros [i' [j' [Heq H]]]. injection Heq as -> ->. exact H.
    - intros H. exists i, j. split; [reflexivity|exact H]. }
  split.
  { intros i j. rewrite in_shared_edges. split.
    - intros [i' [j' [Heq H]]]. injection Heq as -> ->. exact H.
    - intros H. exists i, j. split; [reflexivity|exact H]. }
  split; [apply backend_edges_NoDup|].
  split; [vm_compute; reflexivity|].
  split; [vm_compute; reflexivity|].
  split; [apply backend_vertices_length|].
  apply Forall_forall. intros v Hv. apply Z.eqb_eq. revert v Hv.
  apply forallb_forall. vm_compute. reflexivity.
Qed.

(** C10. For every size the backend's [create_4d_cube] and the shared
    module's [create_4d_cube_vertices] and [create_4d_cube_edges] compute the
    same geometry: the k-th vertex of the backend has the components of the
    k-th tuple of the shared module, and the backend's edges are the shared
    module's pairs, element by element in the same order. *)
Theorem backend_agrees_with_shared (size : float) :
  map Spec.components (Backend.vertices (Backend.create_4d_cube size))
    = Math4d.create_4d_cube_vertices size /\
  (forall k : nat,
      option_map Spec.components
        (nth_error (Backend.vertices (Backend.create_4d_cube size)) k)
      = nth_error (Math4d.create_4d_cube_vertices size) k) /\
  Backend.edges (Backend.create_4d_cube size)
    = map Spec.pair_list Math4d.create_4d_cube_edges /\
  (forall k : nat,
      nth_error (Backend.edges (Backend.create_4d_cube size)) k
      = option_map Spec.pair_list (nth_error Math4d.create_4d_cube_edges k)).
Proof.
  assert (Hv : map Spec.components (Backend.vertices (Backend.create_4d_cube size))
               = Math4d.create_4d_cube_vertices size)
    by (rewrite backend_vertices_map, shared_vertices_map; reflexivity).
  split; [exact Hv|].
  split; [intros k; rewrite <- Hv; symmetry; apply nth_error_map|].
  split; [apply backend_edges_shared|].
  intros k. rewrite backend_edges_shared. apply nth_error_map.
Qed.

(* ================================================================== *)
(** * Binary64 arithmetic: when a difference is zero

    The facts below are read off the specification of the primitive floats
    ([SpecFloat]): a subtraction is an exact integer difference of aligned
    mantissas followed by a rounding, and rounding a non-zero integer at an
    exponent of the format never gives zero (the format has subnormal
    numbers). *)
(* ================================================================== *)

Section Rounding.
Variables prec emax : Z.
Hypothesis prec_pos : 0 < prec.

Local Abbreviation emin := (SpecFloat.emin prec emax).
Local Abbreviation fexp := (SpecFloat.fexp prec emax).

Lemma fexp_ge_emin (k : Z) : emin <= fexp k.
Proof. unfold SpecFloat.fexp. lia. Qed.

(** One shift to the right drops one binary digit. *)
Lemma shr_1_digits (mrs : shr_record) (p : positive) :
  shr_m mrs = Z.pos p -> 1 < Z.pos (digits2_pos p) ->
  exists q, shr_m (shr_1 mrs) = Z.pos q
            /\ Z.pos (digits2_pos q) = Z.pos (digits2_pos p) - 1.
Proof.
  destruct mrs as [m r s]. cbn [shr_m]. intros -> Hd.
  destruct p as [p'|p'|]; cbn [shr_1 shr_m digits2_pos] in *.
  - exists p'. split; [reflexivity|lia].
  - exists p'. split; [reflexivity|lia].
  - lia.
Qed.

Lemma iter_shr_1_digits (k : positive) :
  forall (mrs : shr_record) (p : positive),
    shr_m mrs = Z.pos p -> Z.pos k < Z.pos (digits2_pos p) ->
    exists q, shr_m (iter_pos shr_1 k mrs) = Z.pos q
              /\ Z.pos (digits2_pos q) = Z.pos (digits2_pos p) - Z.pos k.
Proof.
  induction k as [k IH|k IH|]; intros mrs p Hm Hk; cbn [iter_pos].
  - destruct (shr_1_digits mrs p Hm) as [q0 [H0 D0]]; [lia|].
    destruct (IH _ _ H0) as [q1 [H1 D1]]; [lia|].
    destruct (IH _ _ H1) as [q2 [H2 D2]]; [lia|].
    exists q2. split; [exact H2|lia].
  - destruct (IH _ _ Hm) as [q1 [H1 D1]]; [lia|].
    destruct (IH _ _ H1) as [q2 [H2 D2]]; [lia|].
    exists q2. split; [exact H2|lia].
  - destruct (shr_1_digits mrs p Hm) as [q0 [H0 D0]]; [lia|].
    exists q0. split; [exact H0|lia].
Qed.

Lemma shr_record_of_loc_m (m : Z) (l : location) : shr_m (shr_record_of_loc m l) = m.
Proof. destruct l as [|[| |]]; reflexivity. Qed.

(** Shifting a positive mantissa to its canonical exponent keeps it
    positive, when the exponent is not below [emin]. *)
Lemma shr_fexp_positive (p : positive) (e : Z) (l : location) :
  emin <= e ->
  exists q, shr_m (fst (shr_fexp prec emax (Z.pos p) e l)) = Z.pos q
            /\ emin <= snd (shr_fexp prec emax (Z.pos p) e l).
Proof.
  intros He. unfold shr_fexp, shr.
  destruct (fexp (Zdigits2 (Z.pos p) + e) - e) as [|k|k] eqn:Hn; cbn [fst snd].
  - exists p. split; [apply shr_record_of_loc_m|exact He].
  - assert (Hk : Z.pos k < Z.pos (digits2_pos p)).
    { rewrite <- Hn. unfold SpecFloat.fexp. cbn [Zdigits2]. lia. }
    destruct (iter_shr_1_digits k (shr_record_of_loc (Z.pos p) l) p
                (shr_record_of_loc_m _ _) Hk) as [q [Hq _]].
    exists q. split; [exact Hq|lia].
  - exists p. split; [apply shr_record_of_loc_m|exact He].
Qed.

Lemma round_nearest_even_positive (p : positive) (l : location) :
  exists q, round_nearest_even (Z.pos p) l = Z.pos q.
Proof.
  destruct l as [|[| |]]; cbn [round_nearest_even].
  - now exists p.
  - destruct (Z.even (Z.pos p)); [now exists p|now exists (p + 1)%positive].
  - now exists p.
  - now exists (p + 1)%positive.
Qed.

Lemma binary_round_aux_nonzero (s : bool) (p : positive) (e : Z) (l : location) :
  emin <= e -> Spec.sf_is_zero (binary_round_aux prec emax s (Z.pos p) e l) = false.
Proof.
  intros He. unfold binary_round_aux.
  destruct (shr_fexp_positive p e l He) as [q [Hq He']].
  destruct (shr_fexp prec emax (Z.pos p) e l) as [mrs' e']. cbn [fst snd] in *.
  rewrite Hq.
  destruct (round_nearest_even_positive q (loc_of_shr_record mrs')) as [q' ->].
  destruct (shr_fexp_positive q' e' loc_Exact He') as [q'' [Hq'' _]].
  destruct (shr_fexp prec emax (Z.pos q') e' loc_Exact) as [mrs'' e''].
  cbn [fst snd] in *. rewrite Hq''.
  destruct (e'' <=? emax - prec); reflexivity.
Qed.

Lemma binary_round_nonzero (s : bool) (p : positive) (e : Z) :
  emin <= e -> Spec.sf_is_zero (binary_round prec emax s p e) = false.
Proof.
  intros He. unfold binary_round, shl_align.
  destruct (fexp (Z.pos (digits2_pos p) + e) - e) as [|k|k] eqn:Hn;
    apply binary_round_aux_nonzero; try exact He.
  apply fexp_ge_emin.
Qed.

Lemma binary_normalize_zero (m e : Z) (sz : bool) :
  emin <= e -> Spec.sf_is_zero (binary_normalize prec emax m e sz) = (m =? 0).
Proof.
  intros He. destruct m as [|p|p]; cbn [binary_normalize].
  - reflexivity.
  - now apply binary_round_nonzero.
  - now apply binary_round_nonzero.
Qed.


(** The bounds that the number of binary digits gives. *)
Lemma digits2_pos_bounds (p : positive) :
  2 ^ (Z.pos (digits2_pos p) - 1) <= Z.pos p < 2 ^ Z.pos (digits2_pos p).
Proof.
  induction p as [p IH|p IH|]; cbn [digits2_pos].
  - rewrite Pos2Z.inj_succ, Z.pow_succ_r by lia.
    replace (Z.succ (Z.pos (digits2_pos p)) - 1)
      with (Z.succ (Z.pos (digits2_pos p) - 1)) by lia.
    rewrite Z.pow_succ_r by lia. lia.
  - rewrite Pos2Z.inj_succ, Z.pow_succ_r by lia.
    replace (Z.succ (Z.pos (digits2_pos p)) - 1)
      with (Z.succ (Z.pos (digits2_pos p) - 1)) by lia.
    rewrite Z.pow_succ_r by lia. lia.
  - cbn. lia.
Qed.

Lemma digits2_pos_shift (p q : positive) (k : Z) :
  0 <= k -> Z.pos q = Z.pos p * 2 ^ k ->
  Z.pos (digits2_pos q) = Z.pos (digits2_pos p) + k.
Proof.
  intros Hk Hq.
  pose proof (digits2_pos_bounds p) as [Hp1 Hp2].
  pose proof (digits2_pos_bounds q) as [Hq1 Hq2].
  rewrite Hq in Hq1, Hq2.
  assert (H2k : 0 < 2 ^ k) by (apply Z.pow_pos_nonneg; lia).
  assert (Hlo : 2 ^ (Z.pos (digits2_pos p) - 1 + k) < 2 ^ Z.pos (digits2_pos q)).
  { rewrite Z.pow_add_r by lia. nia. }
  assert (Hhi : 2 ^ (Z.pos (digits2_pos q) - 1) < 2 ^ (Z.pos (digits2_pos p) + k)).
  { rewrite (Z.pow_add_r 2 (Z.pos (digits2_pos p))) by lia. nia. }
  apply Z.pow_lt_mono_r_iff in Hlo; [|lia|lia].
  apply Z.pow_lt_mono_r_iff in Hhi; [|lia|lia].
  lia.
Qed.

(** The mantissa that [shl_align] returns, as a number. *)
Lemma shl_align_value (m : positive) (e e' : Z) :
  e' <= e -> Z.pos (fst (shl_align m e e')) = Z.pos m * 2 ^ (e - e').
Proof.
  intros He. unfold shl_align.
  destruct (e' - e) as [|d|d] eqn:Hd; cbn [fst].
  - replace (e - e') with 0 by lia. cbn. lia.
  - lia.
  - replace (e - e') with (Z.pos d) by lia.
    rewrite <- Z.shiftl_mul_pow2 by lia. cbn [Z.shiftl].
    apply (Pos.iter_swap_gen _ _ Z.pos xO (Z.mul 2)). reflexivity.
Qed.

Lemma canonical_exponent (m : positive) (e : Z) :
  bounded prec emax m e = true ->
  fexp (Z.pos (digits2_pos m) + e) = e /\ emin <= e.
Proof.
  unfold bounded, canonical_mantissa. intros H.
  apply andb_true_iff in H as [H _]. apply Z.eqb_eq in H.
  split; [exact H|]. rewrite <- H. apply fexp_ge_emin.
Qed.

(** Two canonical floats that the alignment maps to the same integer are
    the same float. *)
Lemma aligned_eq (mx my : positive) (ex ey : Z) :
  bounded prec emax mx ex = true -> bounded prec emax my ey = true ->
  Z.pos (fst (shl_align mx ex (Z.min ex ey)))
    = Z.pos (fst (shl_align my ey (Z.min ex ey))) ->
  mx = my /\ ex = ey.
Proof.
  intros Bx By.
  destruct (canonical_exponent _ _ Bx) as [Cx _].
  destruct (canonical_exponent _ _ By) as [Cy _].
  rewrite !shl_align_value by lia. intros H.
  assert (He : ex = ey).
  { destruct (Z.le_ge_cases ex ey) as [Hle|Hle].
    - rewrite Z.min_l in H by lia.
      replace (ex - ex) with 0 in H by lia. rewrite Z.pow_0_r, Z.mul_1_r in H.
      pose proof (digits2_pos_shift my mx (ey - ex) ltac:(lia) H) as Hd.
      rewrite <- Cx, <- Cy. f_equal. lia.
    - rewrite Z.min_r in H by lia.
      replace (ey - ey) with 0 in H by lia. rewrite Z.pow_0_r, Z.mul_1_r in H.
      pose proof (digits2_pos_shift mx my (ex - ey) ltac:(lia) (eq_sym H)) as Hd.
      rewrite <- Cx, <- Cy. f_equal. lia. }
  subst ey. split; [|reflexivity].
  rewrite Z.min_id, Z.sub_diag, Z.pow_0_r, !Z.mul_1_r in H. congruence.
Qed.


Lemma SFeqb_finite (sx sy : bool) (mx my : positive) (ex ey : Z) :
  SFeqb (S754_finite sx mx ex) (S754_finite sy my ey) = true
  <-> sx = sy /\ mx = my /\ ex = ey.
Proof.
  unfold SFeqb. cbn [SFcompare]. split.
  - destruct sx, sy; try discriminate;
      destruct (ex ?= ey) eqn:He; try discriminate;
      apply Z.compare_eq in He;
      change (Pos.compare_cont Eq mx my) with (mx ?= my)%positive;
      destruct (mx ?= my)%positive eqn:Hm; try discriminate;
      apply Pos.compare_eq in Hm; auto.
  - intros [-> [-> ->]]. rewrite Z.compare_refl, Pos.compare_cont_refl.
    now destruct sy.
Qed.

Lemma aligned_difference_zero (sx sy : bool) (mx my : positive) (ex ey : Z) :
  bounded prec emax mx ex = true -> bounded prec emax my ey = true ->
  (cond_Zopp sx (Z.pos (fst (shl_align mx ex (Z.min ex ey))))
   - cond_Zopp sy (Z.pos (fst (shl_align my ey (Z.min ex ey)))) =? 0)
  = SFeqb (S754_finite sx mx ex) (S754_finite sy my ey).
Proof.
  intros Bx By. apply eq_iff_eq_true.
  rewrite Z.eqb_eq, SFeqb_finite. split.
  - intros H.
    assert (Hs : sx = sy) by (destruct sx, sy; cbn [cond_Zopp] in H; auto; lia).
    subst sy. split; [reflexivity|].
    apply (aligned_eq mx my ex ey Bx By).
    destruct sx; cbn [cond_Zopp] in H; lia.
  - intros [-> [-> ->]]. lia.
Qed.

(** When a difference of two floats is a zero. *)
Lemma SFsub_zero (a b : spec_float) :
  SpecFloat.valid_binary prec emax a = true ->
  SpecFloat.valid_binary prec emax b = true ->
  Spec.sf_is_zero (SFsub prec emax a b) = SFeqb a b && Spec.sf_is_finite a.
Proof.
  intros Va Vb.
  destruct a as [sa|sa| |sa ma ea], b as [sb|sb| |sb mb eb];
    try reflexivity; try (destruct sa, sb; reflexivity);
    try (destruct sa; reflexivity); try (destruct sb; reflexivity).
  cbn [SpecFloat.valid_binary] in Va, Vb. cbn [SFsub Spec.sf_is_finite].
  rewrite andb_true_r, binary_normalize_zero.
  - apply aligned_difference_zero; assumption.
  - destruct (canonical_exponent _ _ Va), (canonical_exponent _ _ Vb). lia.
Qed.

End Rounding.

Lemma Prim2SF_zero : Prim2SF 0%float = S754_zero false.
Proof. reflexivity. Qed.

Lemma Prim2SF_infinity : Prim2SF infinity = S754_infinity false.
Proof. reflexivity. Qed.

Lemma SFcompare_refl (a : spec_float) :
  a <> S754_nan -> SFcompare a a = Some Eq.
Proof.
  destruct a as [s|s| |s m e]; intros H; try easy.
  - now destruct s.
  - cbn. rewrite Z.compare_refl, Pos.compare_cont_refl. now destruct s.
Qed.

Lemma is_nan_spec (a : float) :
  is_nan a = match Prim2SF a with S754_nan => true | _ => false end.
Proof.
  unfold is_nan. rewrite FloatAxioms.eqb_spec. unfold SFeqb.
  destruct (Prim2SF a) as [s|s| |s m e] eqn:E; try reflexivity.
  - now destruct s.
  - rewrite SFcompare_refl by discriminate. reflexivity.
Qed.

Lemma is_finite_spec (a : float) : is_finite a = Spec.sf_is_finite (Prim2SF a).
Proof.
  unfold is_finite, is_infinity.
  rewrite is_nan_spec, FloatAxioms.eqb_spec, abs_spec, Prim2SF_infinity.
  destruct (Prim2SF a) as [s|s| |s m e]; reflexivity.
Qed.

Lemma eqb_zero_spec (a : float) : (a =? 0)%float = Spec.sf_is_zero (Prim2SF a).
Proof.
  rewrite FloatAxioms.eqb_spec, Prim2SF_zero.
  destruct (Prim2SF a) as [s|s| |s m e]; try reflexivity; now destruct s.
Qed.

(** The divisor of the projection is zero exactly when the two numbers are
    equal and finite. *)
Lemma sub_eqb_zero (d w : float) :
  (d - w =? 0)%float = (d =? w)%float && is_finite d.
Proof.
  rewrite eqb_zero_spec, sub_spec, is_finite_spec, FloatAxioms.eqb_spec.
  apply SFsub_zero; try apply Prim2SF_valid. reflexivity.
Qed.

(** Adding [0.0] keeps every value, turning [-0.0] into [0.0]. *)
Lemma add_zero_spec (a : float) :
  Prim2SF (a + 0)%float
  = match Prim2SF a with
    | S754_zero _ => S754_zero false
    | v => v
    end.
Proof.
  rewrite add_spec, Prim2SF_zero. unfold SF64add.
  destruct (Prim2SF a) as [s|s| |s m e]; try reflexivity.
  now destruct s.
Qed.

Lemma add_zero_same_value (a : float) : Spec.same_value (a + 0)%float a = true.
Proof.
  unfold Spec.same_value.
  rewrite !is_nan_spec, FloatAxioms.eqb_spec, add_zero_spec. unfold SFeqb.
  destruct (Prim2SF a) as [s|s| |s m e] eqn:E; try reflexivity.
  - now destruct s.
  - rewrite SFcompare_refl by discriminate. reflexivity.
Qed.

Lemma add_zero_kept (a : float) : Spec.kept a (a + 0)%float.
Proof.
  unfold Spec.kept. pose proof (add_zero_spec a) as H.
  destruct (Prim2SF a) as [s|s| |s m e] eqn:E;
    try (left; apply Prim2SF_inj; rewrite H, E; reflexivity).
  destruct s.
  - right. split; apply Prim2SF_inj; [rewrite E|rewrite H]; reflexivity.
  - left. apply Prim2SF_inj. rewrite H, E. reflexivity.
Qed.

Lemma opp_eqb_zero (a : float) : (- a =? 0)%float = (a =? 0)%float.
Proof.
  rewrite !eqb_zero_spec, opp_spec.
  destruct (Prim2SF a); reflexivity.
Qed.

(* ================================================================== *)
(** * Transforms *)
(* ================================================================== *)

Lemma deref_new_Shape4D (st : Backend.store) (s : Backend.Shape4D) :
  Backend.deref (fst (Backend.new_Shape4D st s)) (snd (Backend.new_Shape4D st s))
  = Some s.
Proof.
  unfold Backend.deref, Backend.new_Shape4D. cbn [fst snd].
  rewrite nth_error_app2 by lia. now rewrite Nat.sub_diag.
Qed.

Lemma deref_kept (st : Backend.store) (s s' : Backend.Shape4D) (r : Backend.ref) :
  Backend.deref st r = Some s' ->
  Backend.deref (fst (Backend.new_Shape4D st s)) r = Some s'.
Proof.
  unfold Backend.deref, Backend.new_Shape4D. cbn [fst]. intros H.
  rewrite nth_error_app1; [exact H|].
  apply nth_error_Some. rewrite H. discriminate.
Qed.

Lemma deref_fresh (st : Backend.store) (s : Backend.Shape4D) :
  Backend.deref st (snd (Backend.new_Shape4D st s)) = None.
Proof.
  unfold Backend.deref, Backend.new_Shape4D. cbn [snd].
  apply nth_error_None. lia.
Qed.

(** C3. For every shape and every transform, whatever its rotation angles,
    [apply_transform] returns a shape with the vertices and the edges of the
    input and with the position [shape.position + transform.translation],
    component by component on x, y, z and w. The six rotation angles have no
    effect: a transform with other angles and the same translation gives the
    same result. On objects, the result is a new [Shape4D] (a reference that
    held no object before, so not the argument), and every object of the
    store, the argument among them, is left as it was. *)
Theorem apply_transform_translates
        (shape : Backend.Shape4D) (transform : Backend.Transform4D) :
  Backend.vertices (Backend.apply_transform shape transform)
    = Backend.vertices shape /\
  Backend.edges (Backend.apply_transform shape transform)
    = Backend.edges shape /\
  Backend.position (Backend.apply_transform shape transform)
    = {| Backend.x := Backend.x (Backend.position shape)
                      + Backend.x (Backend.translation transform);
         Backend.y := Backend.y (Backend.position shape)
                      + Backend.y (Backend.translation transform);
         Backend.z := Backend.z (Backend.position shape)
                      + Backend.z (Backend.translation transform);
         Backend.w := Backend.w (Backend.position shape)
                      + Backend.w (Backend.translation transform) |}%float /\
  (forall rxy rxz rxw ryz ryw rzw : float,
      Backend.apply_transform shape
        (Backend.mkTransform4D rxy rxz rxw ryz ryw rzw
                               (Backend.translation transform))
      = Backend.apply_transform shape transform) /\
  (forall (st : Backend.store) (r : Backend.ref),
      Backend.deref st r = Some shape ->
      exists (st' : Backend.store) (r' : Backend.ref),
        Backend.apply_transform_obj st r transform = Some (st', r') /\
        Backend.deref st' r' = Some (Backend.apply_transform shape transform) /\
        Backend.deref st r' = None /\
        r' <> r /\
        Backend.deref st' r = Some shape /\
        (forall q s, Backend.deref st q = Some s -> Backend.deref st' q = Some s)).
Proof.
  split; [reflexivity|]. split; [reflexivity|]. split; [reflexivity|].
  split; [reflexivity|].
  intros st r Hr.
  exists (fst (Backend.new_Shape4D st (Backend.apply_transform shape transform))),
         (snd (Backend.new_Shape4D st (Backend.apply_transform shape transform))).
  unfold Backend.apply_transform_obj. rewrite Hr.
  split; [now rewrite <- surjective_pairing|].
  split; [apply deref_new_Shape4D|].
  split; [apply deref_fresh|].
  split.
  { intros Heq. pose proof (deref_fresh st (Backend.apply_transform shape transform)) as Hf.
    rewrite Heq, Hr in Hf. discriminate. }
  split; [apply deref_kept; exact Hr|].
  intros q s Hq. apply deref_kept. exact Hq.
Qed.

(** C3, on the sample: the unit hypercube at the origin, in a store of its
    own, translated by (1, 2, 3, 4) under non-zero rotation angles, comes
    back as a second object at position (1, 2, 3, 4). *)
Lemma apply_transform_translates_witness :
  Backend.deref Sample.store 0%nat = Some Sample.shape /\
  Backend.position (Backend.apply_transform Sample.shape Sample.transform)
    = {| Backend.x := 1; Backend.y := 2; Backend.z := 3; Backend.w := 4 |}%float /\
  exists (st' : Backend.store) (r' : Backend.ref),
    Backend.apply_transform_obj Sample.store 0%nat Sample.transform = Some (st', r') /\
    Backend.deref st' r' = Some (Backend.apply_transform Sample.shape Sample.transform) /\
    Backend.deref Sample.store r' = None /\
    r' <> 0%nat /\
    Backend.deref st' 0%nat = Some Sample.shape /\
    (forall q s, Backend.deref Sample.store q = Some s -> Backend.deref st' q = Some s).
Proof.
  split; [reflexivity|].
  split; [reflexivity|].
  apply (proj2 (proj2 (proj2 (proj2
           (apply_transform_translates Sample.shape Sample.transform))))).
  reflexivity.
Defined.

(** C6. For every shape, [apply_transform] with the identity [Transform4D]
    (every angle 0, zero translation) returns the vertices and the edges of
    the input, and a position that holds the same values: each coordinate of
    the result compares equal to the input's under Python's [==], a NaN
    coordinate stays NaN. Each coordinate is the very float of the input,
    but for [-0.0], which comes back as [0.0], the same number. *)
Theorem apply_identity_transform (shape : Backend.Shape4D) :
  Backend.vertices (Backend.apply_transform shape Backend.identity_transform)
    = Backend.vertices shape /\
  Backend.edges (Backend.apply_transform shape Backend.identity_transform)
    = Backend.edges shape /\
  Spec.same_vector
    (Backend.position (Backend.apply_transform shape Backend.identity_transform))
    (Backend.position shape) = true /\
  Spec.kept (Backend.x (Backend.position shape))
    (Backend.x (Backend.position
                  (Backend.apply_transform shape Backend.identity_transform))) /\
  Spec.kept (Backend.y (Backend.position shape))
    (Backend.y (Backend.position
                  (Backend.apply_transform shape Backend.identity_transform))) /\
  Spec.kept (Backend.z (Backend.position shape))
    (Backend.z (Backend.position
                  (Backend.apply_transform shape Backend.identity_transform))) /\
  Spec.kept (Backend.w (Backend.position shape))
    (Backend.w (Backend.position
                  (Backend.apply_transform shape Backend.identity_transform))).
Proof.
  split; [reflexivity|]. split; [reflexivity|].
  unfold Spec.same_vector, Backend.apply_transform, Backend.identity_transform,
    Backend.zero_vector.
  cbn [Backend.position Backend.translation
       Backend.x Backend.y Backend.z Backend.w].
  rewrite !add_zero_same_value.
  split; [reflexivity|].
  repeat split; apply add_zero_kept.
Qed.

(* ================================================================== *)
(** * Projection *)
(* ================================================================== *)

(** The projection raises exactly when the divisor [distance - w] is a
    zero, that is when [distance == w] and both are finite. *)
Lemma project_cases (x y z w distance : float) :
  Math4d.project_4d_to_3d (x, y, z, w) distance
  = if (distance =? w)%float && is_finite distance
    then Py.Raise Py.ZeroDivisionError
    else Py.Ok (x * (distance / (distance - w)),
                y * (distance / (distance - w)),
                z * (distance / (distance - w)))%float.
Proof.
  unfold Math4d.project_4d_to_3d, Py.truediv.
  rewrite sub_eqb_zero.
  destruct ((distance =? w)%float && is_finite distance); reflexivity.
Qed.

(** Outside the real numbers: seen from an infinite distance, a point at an
    infinite [w] of the same sign gives the divisor [inf - inf], a NaN, and
    no exception. *)
Lemma project_at_infinity :
  Math4d.project_4d_to_3d (1, 2, 3, infinity)%float infinity
  = Py.Ok (nan, nan, nan).
Proof. reflexivity. Qed.

(** C4. When the viewer distance, a real number (a finite float), equals
    the point's w coordinate, [project_4d_to_3d] raises [ZeroDivisionError]:
    it returns no value, an infinity included. *)
Theorem project_equal_distance_raises (x y z w distance : float) :
  Spec.real_valued distance = true ->
  (distance =? w)%float = true ->
  Math4d.project_4d_to_3d (x, y, z, w) distance = Py.Raise Py.ZeroDivisionError.
Proof.
  unfold Spec.real_valued. intros Hfin Heq.
  rewrite project_cases, Heq, Hfin. reflexivity.
Qed.

(** C4, on the point (1, 1, 1, 5) seen from the distance 5.0. *)
Lemma project_equal_distance_raises_witness :
  Spec.real_valued 5%float = true /\
  (5 =? 5)%float = true /\
  Math4d.project_4d_to_3d (1, 1, 1, 5)%float 5%float
    = Py.Raise Py.ZeroDivisionError.
Proof.
  split; [reflexivity|]. split; [reflexivity|].
  apply project_equal_distance_raises; reflexivity.
Defined.

(** C5. For every point (x, y, z, w) and every viewer distance with
    [distance != w], [project_4d_to_3d] returns
    (x * factor, y * factor, z * factor) with
    factor = distance / (distance - w). The point (0, 0, 0, 0) seen from 5.0
    projects to (0, 0, 0), and (1, 1, 1, 4) to (5, 5, 5). *)
Theorem project_perspective :
  (forall x y z w distance : float,
      (distance =? w)%float = false ->
      Math4d.project_4d_to_3d (x, y, z, w) distance
      = Py.Ok (x * (distance / (distance - w)),
               y * (distance / (distance - w)),
               z * (distance / (distance - w)))%float) /\
  Math4d.project_4d_to_3d (0, 0, 0, 0)%float 5%float = Py.Ok (0, 0, 0)%float /\
  Math4d.project_4d_to_3d (1, 1, 1, 4)%float 5%float = Py.Ok (5, 5, 5)%float.
Proof.
  split; [|split; reflexivity].
  intros x y z w distance Hne. rewrite project_cases, Hne. reflexivity.
Qed.

(** C5, on the point (2, 3, 4, 1) seen from the distance 3.0: the factor is
    3/2. *)
Lemma project_perspective_witness :
  (3 =? 1)%float = false /\
  Math4d.project_4d_to_3d (2, 3, 4, 1)%float 3%float
    = Py.Ok (2 * (3 / (3 - 1)), 3 * (3 / (3 - 1)), 4 * (3 / (3 - 1)))%float /\
  Math4d.project_4d_to_3d (2, 3, 4, 1)%float 3%float = Py.Ok (3, 4.5, 6)%float.
Proof.
  split; [reflexivity|].
  split; [|reflexivity].
  apply (proj1 project_perspective). reflexivity.
Defined.

(* ================================================================== *)
(** * Rotation matrices and the matrix-vector product *)
(* ================================================================== *)

(** C7. For every angle at which [math.cos] and [math.sin] return, each of
    the three builders returns the 4x4 identity matrix with the block
    [[cos, -sin], [sin, cos]] at the rows and columns of its plane: 0 and 1
    for xy, 0 and 2 for xz, 0 and 3 for xw, with 1 on the rest of the
    diagonal and 0 elsewhere. When the cosine of 0 is 1 and the sine of 0
    is 0, the xy matrix at angle 0 equals the identity matrix. At an angle
    where [math.cos] or [math.sin] raises (an infinite angle), the builders
    return no matrix: they raise the same exception. *)
Theorem rotation_matrices (cos sin : float -> Py.result float) :
  (forall angle c s : float,
      cos angle = Py.Ok c -> sin angle = Py.Ok s ->
      Math4d.rotation_matrix_4d_xy cos sin angle
        = Py.Ok (Spec.matrix4 (Spec.plane_rotation 0 1 c s)) /\
      Math4d.rotation_matrix_4d_xz cos sin angle
        = Py.Ok (Spec.matrix4 (Spec.plane_rotation 0 2 c s)) /\
      Math4d.rotation_matrix_4d_xw cos sin angle
        = Py.Ok (Spec.matrix4 (Spec.plane_rotation 0 3 c s))) /\
  (forall c s : float,
      cos 0%float = Py.Ok c -> sin 0%float = Py.Ok s ->
      (c =? 1)%float = true -> (s =? 0)%float = true ->
      exists m,
        Math4d.rotation_matrix_4d_xy cos sin 0%float = Py.Ok m /\
        Spec.matrix_eqb m Spec.identity4 = true) /\
  (forall (angle : float) (e : Py.exn),
      cos angle = Py.Raise e ->
      Math4d.rotation_matrix_4d_xy cos sin angle = Py.Raise e /\
      Math4d.rotation_matrix_4d_xz cos sin angle = Py.Raise e /\
      Math4d.rotation_matrix_4d_xw cos sin angle = Py.Raise e) /\
  (forall (angle c : float) (e : Py.exn),
      cos angle = Py.Ok c -> sin angle = Py.Raise e ->
      Math4d.rotation_matrix_4d_xy cos sin angle = Py.Raise e /\
      Math4d.rotation_matrix_4d_xz cos sin angle = Py.Raise e /\
      Math4d.rotation_matrix_4d_xw cos sin angle = Py.Raise e).
Proof.
  unfold Math4d.rotation_matrix_4d_xy, Math4d.rotation_matrix_4d_xz,
    Math4d.rotation_matrix_4d_xw.
  split; [|split; [|split]].
  - intros angle c s Hc Hs. rewrite Hc, Hs. split; [|split]; reflexivity.
  - intros c s Hc Hs Hc1 Hs0. rewrite Hc, Hs. cbn [Py.bind].
    eexists. split; [reflexivity|].
    unfold Spec.matrix_eqb. cbn. rewrite Hc1, opp_eqb_zero, Hs0. reflexivity.
  - intros angle e Hc. rewrite Hc. split; [|split]; reflexivity.
  - intros angle c e Hc Hs. rewrite Hc, Hs. split; [|split]; reflexivity.
Qed.

(** C7, with the stand-ins for [math.cos] and [math.sin]: the xy matrix at
    the angle 0, and the [ValueError] at an infinite angle. *)
Lemma rotation_matrices_witness :
  Sample.math_cos 0%float = Py.Ok 1%float /\
  Sample.math_sin 0%float = Py.Ok 0%float /\
  (exists m,
      Math4d.rotation_matrix_4d_xy Sample.math_cos Sample.math_sin 0%float
        = Py.Ok m /\
      Spec.matrix_eqb m Spec.identity4 = true) /\
  Sample.math_cos infinity = Py.Raise Py.ValueError /\
  Math4d.rotation_matrix_4d_xy Sample.math_cos Sample.math_sin infinity
    = Py.Raise Py.ValueError.
Proof.
  split; [reflexivity|]. split; [reflexivity|].
  split.
  - apply (proj1 (proj2 (rotation_matrices Sample.math_cos Sample.math_sin))
             1%float 0%float); reflexivity.
  - split; [reflexivity|].
    apply (proj1 (proj2 (proj2 (rotation_matrices Sample.math_cos Sample.math_sin)))
             infinity Py.ValueError).
    reflexivity.
Defined.

(** C8. For every 4x4 matrix and every vector of 4 components,
    [matrix_multiply_4d] returns the matrix-vector product: component [i] of
    the result is the sum over [j] in [[0,4)] of
    [matrix[i][j] * vector[j]]. The function reads its arguments and writes
    only its own list [result]; the returned value depends on nothing
    else. *)
Theorem matrix_multiply_4d_product
        (matrix : list (list float)) (vector : list float) :
  List.length matrix = 4%nat ->
  Forall (fun row => List.length row = 4%nat) matrix ->
  List.length vector = 4%nat ->
  Math4d.matrix_multiply_4d matrix vector
  = Py.Ok (map (fun i =>
             Spec.sigma 4 (fun j =>
               (Spec.entry matrix i j * Spec.component vector j)%float))
             (seq 0 4)).
Proof.
  intros Hm Hrows Hv.
  destruct vector as [|v0 [|v1 [|v2 [|v3 [|? ?]]]]]; try discriminate Hv.
  destruct matrix as [|r0 [|r1 [|r2 [|r3 [|? ?]]]]]; try discriminate Hm.
  apply Forall_cons_iff in Hrows as [H0 Hrows].
  apply Forall_cons_iff in Hrows as [H1 Hrows].
  apply Forall_cons_iff in Hrows as [H2 Hrows].
  apply Forall_cons_iff in Hrows as [H3 _].
  destruct r0 as [|a00 [|a01 [|a02 [|a03 [|? ?]]]]]; try discriminate H0.
  destruct r1 as [|a10 [|a11 [|a12 [|a13 [|? ?]]]]]; try discriminate H1.
  destruct r2 as [|a20 [|a21 [|a22 [|a23 [|? ?]]]]]; try discriminate H2.
  destruct r3 as [|a30 [|a31 [|a32 [|a33 [|? ?]]]]]; try discriminate H3.
  reflexivity.
Qed.

(** C8, on a sample matrix and vector. *)
Lemma matrix_multiply_4d_product_witness :
  Math4d.matrix_multiply_4d Sample.matrix Sample.vector
  = Py.Ok (map (fun i =>
             Spec.sigma 4 (fun j =>
               (Spec.entry Sample.matrix i j * Spec.component Sample.vector j)%float))
             (seq 0 4)) /\
  Math4d.matrix_multiply_4d Sample.matrix Sample.vector
  = Py.Ok [24; 54; 0.5; 8.5]%float.
Proof.
  split; [|reflexivity].
  apply matrix_multiply_4d_product.
  - reflexivity.
  - repeat constructor.
  - reflexivity.
Defined.

(* ================================================================== *)
(** * Well-formed edges *)
(* ================================================================== *)

Lemma edge_ok_iff (n : Z) (e : list Z) :
  Spec.edge_ok n e = true <-> exists i j, e = [i; j] /\ 0 <= i /\ i < j /\ j < n.
Proof.
  split.
  - destruct e as [|i [|j [|? ?]]]; try discriminate. cbn [Spec.edge_ok].
    intros H. apply andb_true_iff in H as [H Hj]. apply andb_true_iff in H as [Hi Hij].
    exists i, j. split; [reflexivity|]. lia.
  - intros [i [j [-> [Hi [Hij Hj]]]]]. cbn [Spec.edge_ok].
    apply andb_true_iff. split; [apply andb_true_iff; split|]; lia.
Qed.

(** C9. Every edge that hypercube generation produces is a pair [[i, j]]
    with [i < j] and both indices within [[0, vertex count)]: no edge joins
    a vertex to itself. No edge occurs twice and none occurs reversed. The
    same holds of the pairs of the shared module. [apply_transform] returns
    the edge list and the vertex list as they were, so a shape is well
    formed after it exactly when it was before. *)
Theorem edges_well_formed :
  (forall size : float,
      Forall (fun e => exists i j,
                  e = [i; j] /\ 0 <= i /\ i < j /\
                  j < Z.of_nat (List.length
                                  (Backend.vertices (Backend.create_4d_cube size))))
             (Backend.edges (Backend.create_4d_cube size)) /\
      Spec.edges_valid (Backend.create_4d_cube size) = true /\
      NoDup (Backend.edges (Backend.create_4d_cube size)) /\
      Forall (fun e => ~ In (rev e) (Backend.edges (Backend.create_4d_cube size)))
             (Backend.edges (Backend.create_4d_cube size))) /\
  Forall (fun e => 0 <= fst e /\ fst e < snd e /\ snd e < 16)
         Math4d.create_4d_cube_edges /\
  NoDup Math4d.create_4d_cube_edges /\
  Forall (fun e => ~ In (snd e, fst e) Math4d.create_4d_cube_edges)
         Math4d.create_4d_cube_edges /\
  (forall (shape : Backend.Shape4D) (transform : Backend.Transform4D),
      Backend.edges (Backend.apply_transform shape transform) = Backend.edges shape /\
      List.length (Backend.vertices (Backend.apply_transform shape transform))
        = List.length (Backend.vertices shape) /\
      Spec.edges_valid (Backend.apply_transform shape transform)
        = Spec.edges_valid shape).
Proof.
  split.
  { intros size.
    assert (Hall : Forall (fun e => exists i j,
                     e = [i; j] /\ 0 <= i /\ i < j /\
                     j < Z.of_nat (List.length
                            (Backend.vertices (Backend.create_4d_cube size))))
                   (Backend.edges (Backend.create_4d_cube size))).
    { apply Forall_forall. intros e He. rewrite backend_vertices_length.
      apply in_backend_edges in He as [i [j [-> [Hi [Hij [Hj _]]]]]].
      exists i, j. split; [reflexivity|]. lia. }
    split; [exact Hall|].
    split.
    { unfold Spec.edges_valid. apply forallb_forall. intros e He.
      apply edge_ok_iff. rewrite Forall_forall in Hall. apply Hall, He. }
    split; [apply backend_edges_NoDup|].
    apply Forall_forall. intros e He Hrev.
    apply in_backend_edges in He as [i [j [-> [Hi [Hij [Hj _]]]]]].
    cbn [rev app] in Hrev.
    apply in_backend_edges in Hrev as [i' [j' [Heq [_ [Hlt _]]]]].
    injection Heq as -> ->. lia. }
  split.
  { apply Forall_forall. intros e He.
    apply in_shared_edges in He as [i [j [-> [Hi [Hij [Hj _]]]]]].
    cbn [fst snd]. lia. }
  split; [apply shared_edges_NoDup|].
  split.
  { apply Forall_forall. intros e He Hrev.
    apply in_shared_edges in He as [i [j [-> [Hi [Hij [Hj _]]]]]].
    cbn [fst snd] in Hrev.
    apply in_shared_edges in Hrev as [i' [j' [Heq [_ [Hlt _]]]]].
    injection Heq as -> ->. lia. }
  intros shape transform. split; [reflexivity|]. split; reflexivity.
Qed.

(* ================================================================== *)
(** * Binary64 arithmetic: products, sums and quotients at the special
      values *)
(* ================================================================== *)

Lemma Prim2SF_one : Prim2SF 1%float = S754_finite false 4503599627370496 (-52).
Proof. reflexivity. Qed.

Lemma Prim2SF_nan : Prim2SF nan = S754_nan.
Proof. reflexivity. Qed.

(** Rounding the mantissa [m * 2^52] at the exponent [e - 52] gives back the float [(m, e)]. *)
Lemma round_shifted_52 (s : bool) (m : positive) (e : Z) :
  bounded prec emax m e = true ->
  binary_round_aux prec emax s
    (Z.pos (4503599627370496 * m)) (-52 + e) loc_Exact
  = S754_finite s m e.
Proof.
  intros B. pose proof (canonical_exponent prec emax m e B) as [C _].
  apply andb_true_iff in B as [_ Hmax].
  unfold binary_round_aux, shr_fexp.
  assert (Hd : Zdigits2 (Z.pos (4503599627370496 * m)) = Z.pos (digits2_pos m) + 52).
  { cbn [Zdigits2]. apply digits2_pos_shift; [lia|]. rewrite Pos2Z.inj_mul. lia. }
  rewrite Hd.
  replace (Z.pos (digits2_pos m) + 52 + (-52 + e)) with (Z.pos (digits2_pos m) + e) by lia.
  replace (fexp prec emax (Z.pos (digits2_pos m) + e)) with e by (symmetry; exact C).
  replace (e - (-52 + e)) with 52 by lia.
  cbn [shr_record_of_loc shr]. 
  change (Z.pos (4503599627370496 * m)) with (Z.pos (Pos.iter xO m 52)).
  cbn [Pos.iter iter_pos shr_1 shr_m shr_r shr_s orb loc_of_shr_record
       round_nearest_even shr_record_of_loc].
  replace (-52 + e + 52) with e by lia.
  cbn [Zdigits2]. rewrite C, Z.sub_diag. cbn [shr shr_m].
  rewrite Hmax. reflexivity.
Qed.

Lemma mul_one_l (a : float) : (1 * a)%float = a.
Proof.
  apply Prim2SF_inj. rewrite mul_spec, Prim2SF_one.
  pose proof (Prim2SF_valid a) as V.
  destruct (Prim2SF a) as [s|s| |s m e]; try reflexivity.
  cbn [SpecFloat.valid_binary] in V. unfold SF64mul. cbn [SFmul xorb].
  apply round_shifted_52. exact V.
Qed.

Lemma SFmul_comm (a b : spec_float) : SFmul prec emax a b = SFmul prec emax b a.
Proof.
  destruct a as [sa|sa| |sa ma ea], b as [sb|sb| |sb mb eb]; cbn [SFmul];
    rewrite ?(xorb_comm sa sb); try reflexivity.
  now rewrite Pos.mul_comm, Z.add_comm.
Qed.

Lemma mul_comm (a b : float) : (a * b)%float = (b * a)%float.
Proof. apply Prim2SF_inj. rewrite !mul_spec. apply SFmul_comm. Qed.

Lemma mul_one_r (a : float) : (a * 1)%float = a.
Proof. rewrite mul_comm. apply mul_one_l. Qed.

(** A zero times a finite number is a zero. *)
Lemma mul_zero_l (z a : float) :
  (z =? 0)%float = true -> is_finite a = true -> (z * a =? 0)%float = true.
Proof.
  rewrite !eqb_zero_spec, is_finite_spec, mul_spec. unfold SF64mul.
  destruct (Prim2SF z), (Prim2SF a); try discriminate; reflexivity.
Qed.

Lemma mul_zero_r (a z : float) :
  is_finite a = true -> (z =? 0)%float = true -> (a * z =? 0)%float = true.
Proof. intros Ha Hz. rewrite mul_comm. now apply mul_zero_l. Qed.

Lemma Prim2SF_nan_inv (a : float) : Prim2SF a = S754_nan -> a = nan.
Proof. intros H. apply Prim2SF_inj. now rewrite H. Qed.

Lemma mul_nan_r (a : float) : (a * nan)%float = nan.
Proof.
  apply Prim2SF_inj. rewrite mul_spec, Prim2SF_nan. unfold SF64mul.
  destruct (Prim2SF a); reflexivity.
Qed.

Lemma is_infinity_spec (a : float) :
  is_infinity a = match Prim2SF a with S754_infinity _ => true | _ => false end.
Proof.
  unfold is_infinity. rewrite FloatAxioms.eqb_spec, abs_spec, Prim2SF_infinity.
  destruct (Prim2SF a) as [s|s| |s m e]; reflexivity.
Qed.

Lemma mul_zero_infinity (z a : float) :
  (z =? 0)%float = true -> is_infinity a = true -> (z * a)%float = nan.
Proof.
  rewrite eqb_zero_spec, is_infinity_spec. intros Hz Ha.
  apply Prim2SF_inj. rewrite mul_spec, Prim2SF_nan. unfold SF64mul.
  destruct (Prim2SF z), (Prim2SF a); try discriminate; reflexivity.
Qed.

Lemma SFopp_involutive (a : spec_float) : SFopp (SFopp a) = a.
Proof. destruct a as [s|s| |s m e]; cbn; rewrite ?negb_involutive; reflexivity. Qed.

Lemma opp_involutive (a : float) : (- - a)%float = a.
Proof. apply Prim2SF_inj. rewrite !opp_spec. apply SFopp_involutive. Qed.

Lemma binary_round_aux_opp (s : bool) (m e : Z) (l : location) :
  SFopp (binary_round_aux prec emax s m e l)
  = binary_round_aux prec emax (negb s) m e l.
Proof.
  unfold binary_round_aux.
  destruct (shr_fexp prec emax m e l) as [mrs' e'].
  destruct (shr_fexp prec emax _ e' loc_Exact) as [mrs'' e''].
  destruct (shr_m mrs''); try reflexivity.
  destruct (e'' <=? emax - prec); reflexivity.
Qed.

Lemma mul_opp_l (a b : float) : (- a * b)%float = (- (a * b))%float.
Proof.
  apply Prim2SF_inj. rewrite opp_spec, !mul_spec, opp_spec. unfold SF64mul.
  destruct (Prim2SF a) as [sa|sa| |sa ma ea], (Prim2SF b) as [sb|sb| |sb mb eb];
    cbn [SFmul SFopp]; rewrite <- ?negb_xorb_l; try reflexivity.
  symmetry. apply binary_round_aux_opp.
Qed.

(** ** Values up to the sign of zero *)

Lemma SFeqb_norm (a b : spec_float) :
  SFeqb a b = true <-> a <> S754_nan /\ b <> S754_nan /\ Notions.sf_norm a = Notions.sf_norm b.
Proof.
  split.
  - intros H.
    destruct a as [[|]|[|]| |[|] ma ea], b as [[|]|[|]| |[|] mb eb];
      try (cbn in H; discriminate H);
      try (repeat split; (discriminate || reflexivity));
      apply SFeqb_finite in H as [_ [-> ->]];
      repeat split; (discriminate || reflexivity).
  - intros [Ha [Hb H]].
    destruct a as [[|]|[|]| |sa ma ea], b as [[|]|[|]| |sb mb eb];
      try discriminate H; try congruence; try reflexivity.
    cbn [Notions.sf_norm] in H. injection H as -> -> ->.
    apply SFeqb_finite. auto.
Qed.

Lemma same_value_norm (a b : float) :
  Spec.same_value a b = true <-> Notions.sf_norm (Prim2SF a) = Notions.sf_norm (Prim2SF b).
Proof.
  unfold Spec.same_value. rewrite orb_true_iff, andb_true_iff, !is_nan_spec.
  rewrite FloatAxioms.eqb_spec, SFeqb_norm. split.
  - intros [[_ [_ H]]|[Ha Hb]]; [exact H|].
    destruct (Prim2SF a), (Prim2SF b); try discriminate; reflexivity.
  - intros H. destruct (Prim2SF a) as [sa|sa| |sa ma ea] eqn:Ea,
                       (Prim2SF b) as [sb|sb| |sb mb eb] eqn:Eb;
      try discriminate H;
      try (left; split; [discriminate|split; [discriminate|exact H]]).
    right. split; reflexivity.
Qed.

Lemma same_value_refl (a : float) : Spec.same_value a a = true.
Proof. now apply same_value_norm. Qed.

Lemma same_value_eqb_zero (a : float) :
  (a =? 0)%float = true -> Spec.same_value a 0 = true.
Proof.
  rewrite eqb_zero_spec. intros H. apply same_value_norm. rewrite Prim2SF_zero.
  destruct (Prim2SF a); try discriminate. reflexivity.
Qed.

(** Adding a zero, on either side, keeps the value. *)
Lemma add_zero_r_norm (a z : float) :
  (z =? 0)%float = true ->
  Notions.sf_norm (Prim2SF (a + z)) = Notions.sf_norm (Prim2SF a).
Proof.
  rewrite eqb_zero_spec, add_spec. unfold SF64add. intros Hz.
  destruct (Prim2SF a) as [sa|sa| |sa ma ea], (Prim2SF z) as [sz|sz| |sz mz ez];
    try discriminate; try reflexivity.
  destruct sa, sz; reflexivity.
Qed.

Lemma add_zero_l_norm (z a : float) :
  (z =? 0)%float = true ->
  Notions.sf_norm (Prim2SF (z + a)) = Notions.sf_norm (Prim2SF a).
Proof.
  rewrite eqb_zero_spec, add_spec. unfold SF64add. intros Hz.
  destruct (Prim2SF a) as [sa|sa| |sa ma ea], (Prim2SF z) as [sz|sz| |sz mz ez];
    try discriminate; try reflexivity.
  destruct sa, sz; reflexivity.
Qed.

(** Addition does not see the sign of a zero on its left. *)
Lemma add_norm_l (a a' b : float) :
  Notions.sf_norm (Prim2SF a) = Notions.sf_norm (Prim2SF a') ->
  Notions.sf_norm (Prim2SF (a + b)) = Notions.sf_norm (Prim2SF (a' + b)).
Proof.
  rewrite !add_spec. unfold SF64add.
  destruct (Prim2SF a) as [sa|sa| |sa ma ea], (Prim2SF a') as [sa'|sa'| |sa' ma' ea'];
    try discriminate; cbn [Notions.sf_norm]; intros H.
  - destruct (Prim2SF b) as [sb|sb| |sb mb eb]; try reflexivity.
    destruct sa, sa', sb; reflexivity.
  - now injection H as ->.
  - reflexivity.
  - now injection H as -> -> ->.
Qed.

Lemma add_zero_zero (a b : float) :
  (a =? 0)%float = true -> (b =? 0)%float = true -> (a + b =? 0)%float = true.
Proof.
  rewrite !eqb_zero_spec, add_spec. unfold SF64add.
  destruct (Prim2SF a) as [sa|sa| |sa ma ea], (Prim2SF b) as [sb|sb| |sb mb eb];
    try discriminate. intros _ _. destruct sa, sb; reflexivity.
Qed.

Lemma add_nan_l (b : float) : (nan + b)%float = nan.
Proof.
  apply Prim2SF_inj. rewrite add_spec, Prim2SF_nan. reflexivity.
Qed.

Lemma add_nan_r (a : float) : (a + nan)%float = nan.
Proof.
  apply Prim2SF_inj. rewrite add_spec, Prim2SF_nan. unfold SF64add.
  destruct (Prim2SF a); reflexivity.
Qed.

(** ** Subtraction and division at the special values *)

Lemma sub_zero_r (d w : float) :
  (w =? 0)%float = true -> (d =? 0)%float = false -> (d - w)%float = d.
Proof.
  rewrite !eqb_zero_spec. intros Hw Hd.
  apply Prim2SF_inj. rewrite sub_spec. unfold SF64sub.
  destruct (Prim2SF d) as [sd|sd| |sd md ed], (Prim2SF w) as [sw|sw| |sw mw ew];
    try discriminate; reflexivity.
Qed.

Lemma div_eucl_multiple (m : positive) (k : Z) :
  0 <= k -> Z.div_eucl (Z.shiftl (Z.pos m) k) (Z.pos m) = (2 ^ k, 0).
Proof.
  intros Hk. rewrite Z.shiftl_mul_pow2 by assumption.
  pose proof (Z.div_eucl_eq (Z.pos m * 2 ^ k) (Z.pos m) ltac:(lia)) as Heq.
  pose proof (Z.mod_pos_bound (Z.pos m * 2 ^ k) (Z.pos m) ltac:(lia)) as Hb.
  unfold Z.modulo in Hb.
  destruct (Z.div_eucl (Z.pos m * 2 ^ k) (Z.pos m)) as [q r].
  assert (Hq : q = 2 ^ k) by nia.
  subst q. f_equal. lia.
Qed.

(** A finite non-zero number divided by itself is exactly one. *)
Lemma div_self (d : float) :
  is_finite d = true -> (d =? 0)%float = false -> (d / d)%float = 1%float.
Proof.
  rewrite is_finite_spec, eqb_zero_spec. intros Hf Hz.
  apply Prim2SF_inj. rewrite div_spec. unfold SF64div.
  destruct (Prim2SF d) as [s|s| |s m e]; try discriminate.
  cbn [SFdiv]. unfold SFdiv_core_binary.
  replace (Zdigits2 (Z.pos m) + e - (Zdigits2 (Z.pos m) + e)) with 0 by lia.
  replace (e - e) with 0 by lia.
  change (Z.min (fexp prec emax 0) 0) with (-53).
  change (0 - -53) with 53.
  cbv iota beta zeta.
  rewrite div_eucl_multiple by lia.
  rewrite xorb_nilpotent.
  unfold new_location, new_location_even, new_location_odd.
  destruct (Z.even (Z.pos m)); reflexivity.
Qed.

Lemma div_infinity_nan (d w : float) :
  is_infinity d = true -> (d / (d - w))%float = nan.
Proof.
  rewrite is_infinity_spec. intros Hd.
  apply Prim2SF_inj. rewrite div_spec, sub_spec, Prim2SF_nan.
  unfold SF64div, SF64sub.
  destruct (Prim2SF d) as [sd|sd| |sd md ed]; try discriminate.
  destruct (Prim2SF w) as [sw|sw| |sw mw ew]; try reflexivity.
  destruct sd, sw; reflexivity.
Qed.

Lemma sub_infinity_nonzero (d w : float) :
  is_infinity d = true -> (d - w =? 0)%float = false.
Proof.
  intros Hd. rewrite sub_eqb_zero. unfold is_finite. rewrite Hd.
  rewrite orb_true_r. apply andb_false_r.
Qed.

(** Seen from the distance zero, the factor of a point off [w = 0] is a
    zero. *)
Lemma zero_distance_factor (d w : float) :
  (d =? 0)%float = true -> (w =? 0)%float = false -> is_nan w = false ->
  (d - w =? 0)%float = false /\ (d / (d - w) =? 0)%float = true.
Proof.
  rewrite !eqb_zero_spec, is_nan_spec, div_spec, sub_spec.
  unfold SF64div, SF64sub. intros Hd Hw Hn.
  destruct (Prim2SF d) as [sd|sd| |sd md ed]; try discriminate.
  destruct (Prim2SF w) as [sw|sw| |sw mw ew]; try discriminate;
    split; reflexivity.
Qed.

(* ================================================================== *)
(** * Indexing and loops that can raise *)
(* ================================================================== *)

(** ** Indexing *)

Lemma getitem_in {T : Type} (xs : list T) (i : Z) (a : T) :
  0 <= i -> nth_error xs (Z.to_nat i) = Some a -> Py.getitem xs i = Py.Ok a.
Proof.
  intros Hi Hn. unfold Py.getitem, Py.norm_index.
  assert (Hlt : (Z.to_nat i < List.length xs)%nat)
    by (apply nth_error_Some; rewrite Hn; discriminate).
  replace ((0 <=? i) && (i <? Z.of_nat (List.length xs))) with true
    by (symmetry; apply andb_true_iff; split; [apply Z.leb_le|apply Z.ltb_lt]; lia).
  now rewrite Hn.
Qed.

Lemma getitem_Ok_inv {T : Type} (xs : list T) (i : Z) (a : T) :
  0 <= i -> Py.getitem xs i = Py.Ok a ->
  (Z.to_nat i < List.length xs)%nat /\ nth_error xs (Z.to_nat i) = Some a.
Proof.
  intros Hi. unfold Py.getitem, Py.norm_index.
  destruct ((0 <=? i) && (i <? Z.of_nat (List.length xs))) eqn:Hin.
  - destruct (nth_error xs (Z.to_nat i)) as [b|] eqn:Hn; [|discriminate].
    intros H. injection H as ->. split; [|reflexivity].
    apply nth_error_Some. rewrite Hn. discriminate.
  - replace (i <? 0) with false by (symmetry; apply Z.ltb_ge; lia).
    rewrite andb_false_r. discriminate.
Qed.

Lemma getitem_raises {T : Type} (xs : list T) (i : Z) (e : Py.exn) :
  Py.getitem xs i = Py.Raise e -> e = Py.IndexError.
Proof.
  unfold Py.getitem. destruct (Py.norm_index xs i) as [k|].
  - destruct (nth_error xs k); [discriminate|]. now intros [= <-].
  - now intros [= <-].
Qed.

Lemma setitem_raises {T : Type} (xs : list T) (i : Z) (a : T) (e : Py.exn) :
  Py.setitem xs i a = Py.Raise e -> e = Py.IndexError.
Proof.
  unfold Py.setitem. destruct (Py.norm_index xs i); [discriminate|].
  now intros [= <-].
Qed.

(** ** Loops that can raise *)

Lemma bind_Ok_inv {A B : Type} (m : Py.result A) (k : A -> Py.result B) (b : B) :
  Py.bind m k = Py.Ok b -> exists a, m = Py.Ok a /\ k a = Py.Ok b.
Proof. destruct m as [a|e]; [|discriminate]. intros H. now exists a. Qed.

Lemma bind_Raise_inv {A B : Type} (m : Py.result A) (k : A -> Py.result B) (e : Py.exn) :
  Py.bind m k = Py.Raise e -> m = Py.Raise e \/ exists a, m = Py.Ok a /\ k a = Py.Raise e.
Proof.
  destruct m as [a|e']; cbn.
  - intros H. right. now exists a.
  - intros [= ->]. now left.
Qed.

Lemma for_m_Ok_inv {A S : Type} (xs : list A) (body : A -> S -> Py.result S) :
  forall s s', Py.for_m xs body s = Py.Ok s' ->
  forall x, In x xs -> exists s1 s2, body x s1 = Py.Ok s2.
Proof.
  induction xs as [|a xs IH]; intros s s' H x Hx; [contradiction|].
  cbn [Py.for_m] in H. apply bind_Ok_inv in H as [s1 [H1 H2]].
  destruct Hx as [<-|Hx].
  - now exists s, s1.
  - exact (IH _ _ H2 x Hx).
Qed.

Lemma for_m_Raise_inv {A S : Type} (xs : list A) (body : A -> S -> Py.result S) (e : Py.exn) :
  forall s, Py.for_m xs body s = Py.Raise e ->
  exists x s1, In x xs /\ body x s1 = Py.Raise e.
Proof.
  induction xs as [|a xs IH]; intros s H; [discriminate|].
  cbn [Py.for_m] in H. apply bind_Raise_inv in H as [H|[s1 [H1 H2]]].
  - exists a, s. split; [now left|exact H].
  - destruct (IH _ H2) as [x [s2 [Hx Hb]]]. exists x, s2. split; [now right|exact Hb].
Qed.

(** ** The product on inputs of any size *)

Lemma matrix_multiply_4d_ok (matrix : list (list float)) (vector : list float) :
  Notions.shape_ok matrix vector = true ->
  Math4d.matrix_multiply_4d matrix vector
  = Py.Ok (Notions.product4 matrix vector).
Proof.
  unfold Notions.shape_ok. intros H.
  apply andb_true_iff in H as [H Hv]. apply andb_true_iff in H as [Hm Hrows].
  destruct matrix as [|r0 [|r1 [|r2 [|r3 rest]]]]; try discriminate Hm.
  cbn [firstn forallb] in Hrows.
  apply andb_true_iff in Hrows as [H0 Hrows].
  apply andb_true_iff in Hrows as [H1 Hrows].
  apply andb_true_iff in Hrows as [H2 Hrows].
  apply andb_true_iff in Hrows as [H3 _].
  destruct r0 as [|a00 [|a01 [|a02 [|a03 t0]]]]; try discriminate H0.
  destruct r1 as [|a10 [|a11 [|a12 [|a13 t1]]]]; try discriminate H1.
  destruct r2 as [|a20 [|a21 [|a22 [|a23 t2]]]]; try discriminate H2.
  destruct r3 as [|a30 [|a31 [|a32 [|a33 t3]]]]; try discriminate H3.
  destruct vector as [|v0 [|v1 [|v2 [|v3 tv]]]]; try discriminate Hv.
  unfold Math4d.matrix_multiply_4d.
  change (Py.range 0 4) with [0; 1; 2; 3].
  cbn [Py.for_m].
  repeat first [ progress cbn [Py.bind]
               | erewrite getitem_in by (first [lia | reflexivity]) ].
  reflexivity.
Qed.

Lemma matrix_multiply_4d_access (matrix : list (list float)) (vector : list float)
      (r : list float) (i j : Z) :
  Math4d.matrix_multiply_4d matrix vector = Py.Ok r ->
  In i (Py.range 0 4) -> In j (Py.range 0 4) ->
  exists row, nth_error matrix (Z.to_nat i) = Some row
              /\ (Z.to_nat j < List.length row)%nat
              /\ (Z.to_nat j < List.length vector)%nat.
Proof.
  unfold Math4d.matrix_multiply_4d. intros H Hi Hj.
  destruct (for_m_Ok_inv _ _ _ _ H i Hi) as [s1 [s2 Hin]].
  destruct (for_m_Ok_inv _ _ _ _ Hin j Hj) as [s3 [s4 Hb]].
  apply in_range in Hi. apply in_range in Hj.
  apply bind_Ok_inv in Hb as [old [_ Hb]].
  apply bind_Ok_inv in Hb as [row [Hrow Hb]].
  apply bind_Ok_inv in Hb as [m_ij [Hm Hb]].
  apply bind_Ok_inv in Hb as [v_j [Hv _]].
  apply getitem_Ok_inv in Hrow as [_ Hrow]; [|lia].
  apply getitem_Ok_inv in Hm as [Hm _]; [|lia].
  apply getitem_Ok_inv in Hv as [Hv _]; [|lia].
  exists row. auto.
Qed.

Lemma matrix_multiply_4d_Ok_shape (matrix : list (list float)) (vector : list float)
      (r : list float) :
  Math4d.matrix_multiply_4d matrix vector = Py.Ok r ->
  Notions.shape_ok matrix vector = true.
Proof.
  intros H.
  assert (H3 : In 3 (Py.range 0 4)) by (apply in_range; lia).
  destruct (matrix_multiply_4d_access _ _ _ 0 3 H ltac:(apply in_range; lia) H3)
    as [r0 [E0 [L0 Lv]]].
  destruct (matrix_multiply_4d_access _ _ _ 1 3 H ltac:(apply in_range; lia) H3)
    as [r1 [E1 [L1 _]]].
  destruct (matrix_multiply_4d_access _ _ _ 2 3 H ltac:(apply in_range; lia) H3)
    as [r2 [E2 [L2 _]]].
  destruct (matrix_multiply_4d_access _ _ _ 3 3 H H3 H3) as [r3 [E3 [L3 _]]].
  destruct matrix as [|q0 [|q1 [|q2 [|q3 rest]]]]; try discriminate.
  cbn in E0, E1, E2, E3. injection E0 as ->. injection E1 as ->.
  injection E2 as ->. injection E3 as ->.
  change (Z.to_nat 3) with 3%nat in *.
  unfold Notions.shape_ok. cbn [firstn forallb List.length].
  repeat (apply andb_true_iff; split); try reflexivity; apply Nat.leb_le; lia.
Qed.

Lemma matrix_multiply_4d_raises (matrix : list (list float)) (vector : list float)
      (e : Py.exn) :
  Math4d.matrix_multiply_4d matrix vector = Py.Raise e -> e = Py.IndexError.
Proof.
  unfold Math4d.matrix_multiply_4d. intros H.
  apply for_m_Raise_inv in H as [i [s1 [_ H]]].
  apply for_m_Raise_inv in H as [j [s2 [_ H]]].
  repeat match goal with
         | H : Py.bind _ _ = Py.Raise _ |- _ =>
             apply bind_Raise_inv in H as [H|[? [_ H]]];
             [exact (getitem_raises _ _ _ H)|]
         end.
  exact (setitem_raises _ _ _ _ H).
Qed.

(** What [matrix_multiply_4d] does on any input. *)
Lemma matrix_multiply_4d_cases (matrix : list (list float)) (vector : list float) :
  Math4d.matrix_multiply_4d matrix vector
  = if Notions.shape_ok matrix vector
    then Py.Ok (Notions.product4 matrix vector)
    else Py.Raise Py.IndexError.
Proof.
  destruct (Notions.shape_ok matrix vector) eqn:Hs.
  - now apply matrix_multiply_4d_ok.
  - destruct (Math4d.matrix_multiply_4d matrix vector) as [r|e] eqn:Hr.
    + apply matrix_multiply_4d_Ok_shape in Hr. congruence.
    + now rewrite (matrix_multiply_4d_raises _ _ _ Hr).
Qed.

(* ================================================================== *)
(** * Further properties: the matrix-vector product *)
(* ================================================================== *)

Lemma product4_leading (matrix : list (list float)) (vector : list float) :
  Notions.shape_ok matrix vector = true ->
  Notions.product4 (map (firstn 4) (firstn 4 matrix)) (firstn 4 vector)
  = Notions.product4 matrix vector
  /\ Notions.shape_ok (map (firstn 4) (firstn 4 matrix)) (firstn 4 vector) = true.
Proof.
  unfold Notions.shape_ok. intros H.
  apply andb_true_iff in H as [H Hv]. apply andb_true_iff in H as [Hm Hrows].
  destruct matrix as [|r0 [|r1 [|r2 [|r3 rest]]]]; try discriminate Hm.
  cbn [firstn forallb] in Hrows.
  apply andb_true_iff in Hrows as [H0 Hrows].
  apply andb_true_iff in Hrows as [H1 Hrows].
  apply andb_true_iff in Hrows as [H2 Hrows].
  apply andb_true_iff in Hrows as [H3 _].
  destruct r0 as [|a00 [|a01 [|a02 [|a03 t0]]]]; try discriminate H0.
  destruct r1 as [|a10 [|a11 [|a12 [|a13 t1]]]]; try discriminate H1.
  destruct r2 as [|a20 [|a21 [|a22 [|a23 t2]]]]; try discriminate H2.
  destruct r3 as [|a30 [|a31 [|a32 [|a33 t3]]]]; try discriminate H3.
  destruct vector as [|v0 [|v1 [|v2 [|v3 tv]]]]; try discriminate Hv.
  split; reflexivity.
Qed.

(** X1. [matrix_multiply_4d] accepts a matrix with at least 4 rows whose
    first 4 rows have at least 4 entries, and a vector of at least 4
    components: it returns 4 numbers, the product of the leading 4x4 block
    with the first 4 components. Further rows, entries and components are
    not read: the result is that of the truncated inputs. *)
Theorem matrix_multiply_4d_leading_block
        (matrix : list (list float)) (vector : list float) :
  Notions.shape_ok matrix vector = true ->
  Math4d.matrix_multiply_4d matrix vector
    = Py.Ok (Notions.product4 matrix vector) /\
  List.length (Notions.product4 matrix vector) = 4%nat /\
  Math4d.matrix_multiply_4d (map (firstn 4) (firstn 4 matrix)) (firstn 4 vector)
    = Math4d.matrix_multiply_4d matrix vector.
Proof.
  intros H. destruct (product4_leading matrix vector H) as [Hp Hs].
  split; [now apply matrix_multiply_4d_ok|].
  split; [reflexivity|].
  rewrite !matrix_multiply_4d_cases, H, Hs, Hp. reflexivity.
Qed.

(** X1, on a matrix of 5 rows of 5 entries and a vector of 6 components. *)
Lemma matrix_multiply_4d_leading_block_witness :
  Notions.shape_ok
    [ [1; 2; 3; 4; 9]; [5; 6; 7; 8; 9]; [0; 1; 0; 0; 9]; [0.5; 0; 0; 2; 9];
      [9; 9; 9; 9; 9] ]%float
    [1; 0.5; 2; 4; 9; 9]%float = true /\
  Math4d.matrix_multiply_4d
    [ [1; 2; 3; 4; 9]; [5; 6; 7; 8; 9]; [0; 1; 0; 0; 9]; [0.5; 0; 0; 2; 9];
      [9; 9; 9; 9; 9] ]%float
    [1; 0.5; 2; 4; 9; 9]%float
  = Py.Ok [24; 54; 0.5; 8.5]%float.
Proof.
  split; [reflexivity|].
  refine (proj1 (matrix_multiply_4d_leading_block _ _ _)). reflexivity.
Defined.

(** X2. [matrix_multiply_4d] raises [IndexError], and nothing else, on every
    other input: a matrix of fewer than 4 rows (the empty matrix among
    them), one of the first 4 rows with fewer than 4 entries, or a vector of
    fewer than 4 components. *)
Theorem matrix_multiply_4d_index_error
        (matrix : list (list float)) (vector : list float) :
  Notions.shape_ok matrix vector = false ->
  Math4d.matrix_multiply_4d matrix vector = Py.Raise Py.IndexError.
Proof. intros H. now rewrite matrix_multiply_4d_cases, H. Qed.

(** X2, on the empty matrix, and on a matrix whose third row is short. *)
Lemma matrix_multiply_4d_index_error_witness :
  Notions.shape_ok [] [1; 2; 3; 4]%float = false /\
  Math4d.matrix_multiply_4d [] [1; 2; 3; 4]%float = Py.Raise Py.IndexError /\
  Math4d.matrix_multiply_4d
    [ [1; 0; 0; 0]; [0; 1; 0; 0]; [0; 0; 1]; [0; 0; 0; 1] ]%float
    [1; 2; 3; 4]%float = Py.Raise Py.IndexError.
Proof.
  split; [reflexivity|].
  split; apply matrix_multiply_4d_index_error; reflexivity.
Defined.

(** X3. A builder followed by [matrix_multiply_4d]: when [math.cos] or
    [math.sin] raises, the call raises the same exception and no product is
    computed; when both return, the matrix always has the shape that
    [matrix_multiply_4d] needs, and the product raises only [IndexError],
    only when the vector has fewer than 4 components. *)
Theorem rotation_matrices_multiply (cos sin : float -> Py.result float)
        (angle : float) (vector : list float) :
  let composed (builder : float -> Py.result (list (list float))) (a b : nat) :=
    (m <- builder angle ;; Math4d.matrix_multiply_4d m vector)
    = (c <- cos angle ;;
       s <- sin angle ;;
       if (4 <=? List.length vector)%nat
       then Py.Ok (Notions.product4
                     (Spec.matrix4 (Spec.plane_rotation a b c s)) vector)
       else Py.Raise Py.IndexError) in
  composed (Math4d.rotation_matrix_4d_xy cos sin) 0%nat 1%nat /\
  composed (Math4d.rotation_matrix_4d_xz cos sin) 0%nat 2%nat /\
  composed (Math4d.rotation_matrix_4d_xw cos sin) 0%nat 3%nat.
Proof.
  cbv beta zeta.
  unfold Math4d.rotation_matrix_4d_xy, Math4d.rotation_matrix_4d_xz,
    Math4d.rotation_matrix_4d_xw.
  destruct (cos angle) as [c|e]; [|split; [|split]; reflexivity].
  destruct (sin angle) as [s|e]; [|split; [|split]; reflexivity].
  cbn [Py.bind]. rewrite !matrix_multiply_4d_cases.
  split; [|split]; reflexivity.
Qed.

(* ================================================================== *)
(** * Further properties: the projection *)
(* ================================================================== *)

(** X4. A point of the viewer's own 3-space ([w] is zero, of either sign)
    projects to its coordinates x, y, z themselves, from every finite
    non-zero distance: the factor is exactly one. *)
Theorem project_w_zero (x y z w distance : float) :
  (w =? 0)%float = true ->
  is_finite distance = true ->
  (distance =? 0)%float = false ->
  Math4d.project_4d_to_3d (x, y, z, w) distance = Py.Ok (x, y, z).
Proof.
  intros Hw Hf Hd. unfold Math4d.project_4d_to_3d, Py.truediv.
  rewrite (sub_zero_r distance w Hw Hd), Hd. cbn [Py.bind].
  rewrite (div_self distance Hf Hd), !mul_one_r. reflexivity.
Qed.

(** X4, on the point (1.5, -2, 0.25, -0.0) seen from the distance 5.0. *)
Lemma project_w_zero_witness :
  (-0 =? 0)%float = true /\
  is_finite 5%float = true /\
  (5 =? 0)%float = false /\
  Math4d.project_4d_to_3d (1.5, -2, 0.25, -0)%float 5%float
  = Py.Ok (1.5, -2, 0.25)%float.
Proof.
  split; [reflexivity|]. split; [reflexivity|]. split; [reflexivity|].
  apply project_w_zero; reflexivity.
Defined.

(** X5. Seen from an infinite distance, every point, whatever its
    coordinates, projects to (NaN, NaN, NaN) without an exception: the
    factor is [inf / inf]. *)
Theorem project_infinite_distance (x y z w distance : float) :
  is_infinity distance = true ->
  Math4d.project_4d_to_3d (x, y, z, w) distance = Py.Ok (nan, nan, nan).
Proof.
  intros Hd. unfold Math4d.project_4d_to_3d, Py.truediv.
  rewrite (sub_infinity_nonzero distance w Hd). cbn [Py.bind].
  rewrite (div_infinity_nan distance w Hd), !mul_nan_r. reflexivity.
Qed.

(** X5, on the point (1, 2, 3, 4) seen from the distance -inf. *)
Lemma project_infinite_distance_witness :
  is_infinity neg_infinity = true /\
  Math4d.project_4d_to_3d (1, 2, 3, 4)%float neg_infinity = Py.Ok (nan, nan, nan).
Proof.
  split; [reflexivity|]. apply project_infinite_distance; reflexivity.
Defined.

(** X6. Seen from the distance zero, a point with finite x, y, z and a [w]
    that is neither zero nor NaN projects onto the origin: the call returns
    and each of the three coordinates compares equal to zero. *)
Theorem project_zero_distance (x y z w distance : float) :
  (distance =? 0)%float = true ->
  (w =? 0)%float = false -> is_nan w = false ->
  is_finite x = true -> is_finite y = true -> is_finite z = true ->
  exists px py pz : float,
    Math4d.project_4d_to_3d (x, y, z, w) distance = Py.Ok (px, py, pz) /\
    (px =? 0)%float = true /\ (py =? 0)%float = true /\ (pz =? 0)%float = true.
Proof.
  intros Hd Hw Hn Hx Hy Hz.
  destruct (zero_distance_factor distance w Hd Hw Hn) as [Hs Hf].
  unfold Math4d.project_4d_to_3d, Py.truediv. rewrite Hs. cbn [Py.bind].
  eexists _, _, _. split; [reflexivity|].
  repeat split; apply mul_zero_r; assumption.
Qed.

(** X6, on the point (1, -2, 3, 4) seen from the distance 0.0. *)
Lemma project_zero_distance_witness :
  (0 =? 0)%float = true /\ (4 =? 0)%float = false /\ is_nan 4%float = false /\
  is_finite 1%float = true /\ is_finite (-2)%float = true /\
  is_finite 3%float = true /\
  exists px py pz : float,
    Math4d.project_4d_to_3d (1, -2, 3, 4)%float 0%float = Py.Ok (px, py, pz) /\
    (px =? 0)%float = true /\ (py =? 0)%float = true /\ (pz =? 0)%float = true.
Proof.
  repeat (split; [reflexivity|]).
  apply project_zero_distance; reflexivity.
Defined.

(** X7. The projection commutes with the point reflection of the 3-space:
    negating x, y and z negates the three coordinates of the result, and
    the call raises for the one point exactly when it raises for the
    other. *)
Theorem project_negated (x y z w distance : float) :
  Math4d.project_4d_to_3d (- x, - y, - z, w)%float distance
  = Notions.result_map Notions.neg3
      (Math4d.project_4d_to_3d (x, y, z, w) distance).
Proof.
  rewrite !project_cases.
  destruct ((distance =? w)%float && is_finite distance); cbn.
  - reflexivity.
  - now rewrite !mul_opp_l.
Qed.

(* ================================================================== *)
(** * Further properties: rotating a vector *)
(* ================================================================== *)

Lemma eqb_one_inv (c : float) : (c =? 1)%float = true -> c = 1%float.
Proof.
  rewrite FloatAxioms.eqb_spec, Prim2SF_one. intros H.
  apply Prim2SF_inj. rewrite Prim2SF_one.
  destruct (Prim2SF c) as [s|s| |s m e]; try (destruct s; discriminate H);
    try discriminate H.
  apply SFeqb_finite in H as [-> [-> ->]]. reflexivity.
Qed.

Ltac float_is_zero :=
  repeat first [ reflexivity
               | assumption
               | rewrite opp_eqb_zero
               | apply add_zero_zero
               | apply mul_zero_l ].

Ltac same_sum :=
  repeat first [ reflexivity
               | rewrite add_zero_r_norm by float_is_zero
               | rewrite add_zero_l_norm by float_is_zero
               | apply add_norm_l ].

Ltac same_rows :=
  cbn [Py.list_eqb]; rewrite ?andb_true_r;
  repeat (apply andb_true_iff; split);
  apply same_value_norm; same_sum.

(** X8. At an angle where [math.cos] returns [c] and [math.sin] returns
    [s], and on a vector of four finite components, the matrix of
    [rotation_matrix_4d_xy] rotates x and y by the block
    [[c, -s], [s, c]] and keeps z and w; that of [rotation_matrix_4d_xz]
    does so with x and z, keeping y and w, and that of
    [rotation_matrix_4d_xw] with x and w, keeping y and z. The components
    are equal as values (up to the sign of a zero). *)
Theorem rotation_applied (cos sin : float -> Py.result float)
        (angle c s v0 v1 v2 v3 : float) :
  cos angle = Py.Ok c -> sin angle = Py.Ok s ->
  is_finite v0 = true -> is_finite v1 = true ->
  is_finite v2 = true -> is_finite v3 = true ->
  (exists m r,
      Math4d.rotation_matrix_4d_xy cos sin angle = Py.Ok m /\
      Math4d.matrix_multiply_4d m [v0; v1; v2; v3] = Py.Ok r /\
      Py.list_eqb Spec.same_value r
        [c * v0 + - s * v1; s * v0 + c * v1; v2; v3]%float = true) /\
  (exists m r,
      Math4d.rotation_matrix_4d_xz cos sin angle = Py.Ok m /\
      Math4d.matrix_multiply_4d m [v0; v1; v2; v3] = Py.Ok r /\
      Py.list_eqb Spec.same_value r
        [c * v0 + - s * v2; v1; s * v0 + c * v2; v3]%float = true) /\
  (exists m r,
      Math4d.rotation_matrix_4d_xw cos sin angle = Py.Ok m /\
      Math4d.matrix_multiply_4d m [v0; v1; v2; v3] = Py.Ok r /\
      Py.list_eqb Spec.same_value r
        [c * v0 + - s * v3; v1; v2; s * v0 + c * v3]%float = true).
Proof.
  intros Hc Hs F0 F1 F2 F3.
  unfold Math4d.rotation_matrix_4d_xy, Math4d.rotation_matrix_4d_xz,
    Math4d.rotation_matrix_4d_xw.
  rewrite Hc, Hs. cbn [Py.bind].
  split; [|split]; eexists; eexists; (split; [reflexivity|]);
    (split; [cbv; reflexivity|]); rewrite ?mul_one_l; same_rows.
Qed.

(** X8, on the vector (1, 2, 3, 4), with the stand-ins for [math.cos] and
    [math.sin] at the angle 0.5. *)
Lemma rotation_applied_witness :
  Sample.math_cos 0.5%float = Py.Ok (Sample.cos_poly 0.5) /\
  Sample.math_sin 0.5%float = Py.Ok (Sample.sin_poly 0.5) /\
  is_finite 1%float = true /\ is_finite 2%float = true /\
  is_finite 3%float = true /\ is_finite 4%float = true /\
  exists m r,
    Math4d.rotation_matrix_4d_xy Sample.math_cos Sample.math_sin 0.5%float
      = Py.Ok m /\
    Math4d.matrix_multiply_4d m [1; 2; 3; 4]%float = Py.Ok r /\
    Py.list_eqb Spec.same_value r
      [Sample.cos_poly 0.5 * 1 + - Sample.sin_poly 0.5 * 2;
       Sample.sin_poly 0.5 * 1 + Sample.cos_poly 0.5 * 2; 3; 4]%float = true.
Proof.
  repeat (split; [reflexivity|]).
  apply (proj1 (rotation_applied Sample.math_cos Sample.math_sin 0.5
                  (Sample.cos_poly 0.5) (Sample.sin_poly 0.5) 1 2 3 4
                  eq_refl eq_refl eq_refl eq_refl eq_refl eq_refl)).
Defined.

(** X9. At an angle where [math.cos] returns a cosine equal to 1 and
    [math.sin] a sine equal to 0 (the angle 0), the matrix of each of the
    three builders maps a vector of four finite components to itself: every
    component of the product is equal, as a value, to the component of the
    vector. *)
Theorem rotation_by_zero_applied (cos sin : float -> Py.result float)
        (angle c s v0 v1 v2 v3 : float) :
  cos angle = Py.Ok c -> sin angle = Py.Ok s ->
  (c =? 1)%float = true -> (s =? 0)%float = true ->
  is_finite v0 = true -> is_finite v1 = true ->
  is_finite v2 = true -> is_finite v3 = true ->
  (exists m r,
      Math4d.rotation_matrix_4d_xy cos sin angle = Py.Ok m /\
      Math4d.matrix_multiply_4d m [v0; v1; v2; v3] = Py.Ok r /\
      Py.list_eqb Spec.same_value r [v0; v1; v2; v3] = true) /\
  (exists m r,
      Math4d.rotation_matrix_4d_xz cos sin angle = Py.Ok m /\
      Math4d.matrix_multiply_4d m [v0; v1; v2; v3] = Py.Ok r /\
      Py.list_eqb Spec.same_value r [v0; v1; v2; v3] = true) /\
  (exists m r,
      Math4d.rotation_matrix_4d_xw cos sin angle = Py.Ok m /\
      Math4d.matrix_multiply_4d m [v0; v1; v2; v3] = Py.Ok r /\
      Py.list_eqb Spec.same_value r [v0; v1; v2; v3] = true).
Proof.
  intros Hcos Hsin Hc Hs F0 F1 F2 F3. apply eqb_one_inv in Hc. subst c.
  unfold Math4d.rotation_matrix_4d_xy, Math4d.rotation_matrix_4d_xz,
    Math4d.rotation_matrix_4d_xw.
  rewrite Hcos, Hsin. cbn [Py.bind].
  split; [|split]; eexists; eexists; (split; [reflexivity|]);
    (split; [cbv; reflexivity|]); rewrite ?mul_one_l; same_rows.
Qed.

(** X9, on the vector (1, -2, 0.5, 4), with the stand-ins for [math.cos]
    and [math.sin] at the angle 0. *)
Lemma rotation_by_zero_applied_witness :
  Sample.math_cos 0%float = Py.Ok 1%float /\
  Sample.math_sin 0%float = Py.Ok 0%float /\
  (1 =? 1)%float = true /\ (0 =? 0)%float = true /\
  exists m r,
    Math4d.rotation_matrix_4d_xy Sample.math_cos Sample.math_sin 0%float
      = Py.Ok m /\
    Math4d.matrix_multiply_4d m [1; -2; 0.5; 4]%float = Py.Ok r /\
    Py.list_eqb Spec.same_value r [1; -2; 0.5; 4]%float = true.
Proof.
  repeat (split; [reflexivity|]).
  apply (proj1 (rotation_by_zero_applied Sample.math_cos Sample.math_sin
                  0 1 0 1 (-2) 0.5 4
                  eq_refl eq_refl eq_refl eq_refl
                  eq_refl eq_refl eq_refl eq_refl)).
Defined.

(** X10. At an angle where [math.cos] and [math.sin] return, an infinite
    component on an axis outside the plane of the rotation does not stay on
    its axis: the product multiplies it by the zeros of the matrix, and
    every other component of the result is NaN. *)
Theorem rotation_applied_infinite (cos sin : float -> Py.result float)
        (angle c s v0 v1 v2 v3 : float) :
  cos angle = Py.Ok c -> sin angle = Py.Ok s ->
  (is_infinity v2 = true ->
   exists m r2,
     Math4d.rotation_matrix_4d_xy cos sin angle = Py.Ok m /\
     Math4d.matrix_multiply_4d m [v0; v1; v2; v3]
     = Py.Ok [nan; nan; r2; nan]) /\
  (is_infinity v1 = true ->
   exists m r1,
     Math4d.rotation_matrix_4d_xz cos sin angle = Py.Ok m /\
     Math4d.matrix_multiply_4d m [v0; v1; v2; v3]
     = Py.Ok [nan; r1; nan; nan]) /\
  (is_infinity v1 = true ->
   exists m r1,
     Math4d.rotation_matrix_4d_xw cos sin angle = Py.Ok m /\
     Math4d.matrix_multiply_4d m [v0; v1; v2; v3]
     = Py.Ok [nan; r1; nan; nan]).
Proof.
  intros Hc Hs.
  unfold Math4d.rotation_matrix_4d_xy, Math4d.rotation_matrix_4d_xz,
    Math4d.rotation_matrix_4d_xw.
  rewrite Hc, Hs. cbn [Py.bind].
  split; [|split]; intros Hinf; eexists; eexists; (split; [reflexivity|]);
    cbv -[PrimFloat.eqb];
    rewrite (mul_zero_infinity 0 _ eq_refl Hinf), ?add_nan_r, ?add_nan_l;
    reflexivity.
Qed.

(** X10, on the vector (1, 2, inf, 4) under the xy matrix, with the
    stand-ins for [math.cos] and [math.sin] at the angle 0.5. *)
Lemma rotation_applied_infinite_witness :
  Sample.math_cos 0.5%float = Py.Ok (Sample.cos_poly 0.5) /\
  Sample.math_sin 0.5%float = Py.Ok (Sample.sin_poly 0.5) /\
  is_infinity infinity = true /\
  exists m r2,
    Math4d.rotation_matrix_4d_xy Sample.math_cos Sample.math_sin 0.5%float
      = Py.Ok m /\
    Math4d.matrix_multiply_4d m [1; 2; infinity; 4]%float
    = Py.Ok [nan; nan; r2; nan].
Proof.
  repeat (split; [reflexivity|]).
  apply (proj1 (rotation_applied_infinite Sample.math_cos Sample.math_sin
                  0.5 (Sample.cos_poly 0.5) (Sample.sin_poly 0.5)
                  1 2 infinity 4 eq_refl eq_refl)).
  reflexivity.
Defined.

(* ================================================================== *)
(** * Further properties: the hypercube *)
(* ================================================================== *)

(** X11. A negative size mirrors the cube: the vertices of size [-size] are
    the vertices of size [size] in the reverse order (vertex [i] of the one
    is vertex [15 - i] of the other), in the shared module and in the
    backend. *)
Theorem cube_negated_size (size : float) :
  Math4d.create_4d_cube_vertices (- size)%float
    = rev (Math4d.create_4d_cube_vertices size) /\
  Backend.vertices (Backend.create_4d_cube (- size)%float)
    = rev (Backend.vertices (Backend.create_4d_cube size)).
Proof.
  split; cbv -[PrimFloat.opp]; rewrite !opp_involutive; reflexivity.
Qed.

Lemma eqb_sym (a b : float) : (a =? b)%float = (b =? a)%float.
Proof.
  apply eq_iff_eq_true. rewrite !FloatAxioms.eqb_spec, !SFeqb_norm.
  intuition congruence.
Qed.

Lemma eqb_opp_refl (a : float) : (a =? - a)%float = true -> (a =? a)%float = true.
Proof.
  rewrite !FloatAxioms.eqb_spec, opp_spec.
  destruct (Prim2SF a) as [[|]|[|]| |[|] m e]; cbn; try discriminate; reflexivity.
Qed.

Lemma eqb_opp_opp (a : float) : (- a =? - a)%float = (a =? a)%float.
Proof.
  rewrite !FloatAxioms.eqb_spec, opp_spec. unfold SFeqb.
  destruct (Prim2SF a) as [[|]|[|]| |[|] m e]; cbn [SFopp negb];
    rewrite ?SFcompare_refl by discriminate; reflexivity.
Qed.

(** X12. Two different vertices of the hypercube compare equal, as tuples,
    exactly when [size == -size], that is when the size is a zero: for
    every other size the 16 vertices are pairwise different under [==], and
    for a zero size they all coincide. *)
Theorem cube_vertices_distinct (size : float) (i j : Z) :
  0 <= i < 16 -> 0 <= j < 16 -> i <> j ->
  exists p q,
    Py.getitem (Math4d.create_4d_cube_vertices size) i = Py.Ok p /\
    Py.getitem (Math4d.create_4d_cube_vertices size) j = Py.Ok q /\
    Notions.point_eqb p q = (size =? - size)%float.
Proof.
  intros Hi Hj Hne. rewrite shared_vertices_map.
  exists (Spec.cube_vertex size i), (Spec.cube_vertex size j).
  split; [now apply getitem_map_range|].
  split; [now apply getitem_map_range|].
  assert (Hsym : (- size =? size)%float = (size =? - size)%float) by apply eqb_sym.
  pose proof (eqb_opp_refl size) as Hrefl.
  pose proof (eqb_opp_opp size) as Hopp.
  assert (Ci : i = 0 \/ i = 1 \/ i = 2 \/ i = 3 \/ i = 4 \/ i = 5 \/ i = 6 \/ i = 7 \/
               i = 8 \/ i = 9 \/ i = 10 \/ i = 11 \/ i = 12 \/ i = 13 \/ i = 14 \/
               i = 15) by lia.
  assert (Cj : j = 0 \/ j = 1 \/ j = 2 \/ j = 3 \/ j = 4 \/ j = 5 \/ j = 6 \/ j = 7 \/
               j = 8 \/ j = 9 \/ j = 10 \/ j = 11 \/ j = 12 \/ j = 13 \/ j = 14 \/
               j = 15) by lia.
  clear Hi Hj.
  unfold Notions.point_eqb, Spec.cube_vertex, Spec.coord.
  repeat (destruct Ci as [->|Ci]); try subst i;
    repeat (destruct Cj as [->|Cj]); try subst j;
    try (exfalso; apply Hne; reflexivity);
    cbn;
    rewrite ?Hsym, ?Hopp;
    (destruct (size =? - size)%float;
     [rewrite ?(Hrefl eq_refl); reflexivity
     |rewrite ?andb_false_r; reflexivity]).
Qed.

(** X12, on the vertices 0 and 1 of the unit cube. *)
Lemma cube_vertices_distinct_witness :
  exists p q,
    Py.getitem (Math4d.create_4d_cube_vertices 1%float) 0 = Py.Ok p /\
    Py.getitem (Math4d.create_4d_cube_vertices 1%float) 1 = Py.Ok q /\
    Notions.point_eqb p q = (1 =? - 1)%float.
Proof. apply cube_vertices_distinct; lia. Defined.

Ltac edge_axis_at k :=
  exists k;
  split; [lia|];
  split; [reflexivity|];
  split; [reflexivity|];
  let k' := fresh "k" in
  let Hk := fresh "Hk" in
  let Hne := fresh "Hne" in
  intros k' Hk Hne;
  destruct k' as [|[|[|[|k']]]];
  first [ reflexivity | lia | exfalso; apply Hne; reflexivity ].

(** X13. Each edge of the hypercube joins two vertices that differ on one
    axis only: for the edge [[i, j]] vertex [i] has the coordinate [-size]
    and vertex [j] the coordinate [+size] on that axis, and the two vertices
    have the same coordinates on the three other axes. *)
Theorem cube_edges_along_one_axis (size : float) :
  Forall (fun e => exists i j p q,
              e = [i; j] /\
              Py.getitem (map Spec.components
                            (Backend.vertices (Backend.create_4d_cube size))) i
                = Py.Ok p /\
              Py.getitem (map Spec.components
                            (Backend.vertices (Backend.create_4d_cube size))) j
                = Py.Ok q /\
              exists k : nat,
                (k < 4)%nat /\
                Notions.axis k p = (- size)%float /\
                Notions.axis k q = size /\
                forall k' : nat, (k' < 4)%nat -> k' <> k ->
                                 Notions.axis k' p = Notions.axis k' q)
         (Backend.edges (Backend.create_4d_cube size)).
Proof.
  apply Forall_forall. intros e He.
  apply in_backend_edges in He as [i [j [-> [Hi [Hij [Hj Hw]]]]]].
  exists i, j, (Spec.cube_vertex size i), (Spec.cube_vertex size j).
  rewrite backend_vertices_map.
  split; [reflexivity|].
  split; [apply getitem_map_range; lia|].
  split; [apply getitem_map_range; lia|].
  assert (Ci : i = 0 \/ i = 1 \/ i = 2 \/ i = 3 \/ i = 4 \/ i = 5 \/ i = 6 \/ i = 7 \/
               i = 8 \/ i = 9 \/ i = 10 \/ i = 11 \/ i = 12 \/ i = 13 \/ i = 14 \/
               i = 15) by lia.
  assert (Cj : j = 0 \/ j = 1 \/ j = 2 \/ j = 3 \/ j = 4 \/ j = 5 \/ j = 6 \/ j = 7 \/
               j = 8 \/ j = 9 \/ j = 10 \/ j = 11 \/ j = 12 \/ j = 13 \/ j = 14 \/
               j = 15) by lia.
  clear Hi Hj.
  repeat (destruct Ci as [->|Ci]); try subst i;
    repeat (destruct Cj as [->|Cj]); try subst j;
    try (exfalso; lia);
    try (vm_compute in Hw; discriminate Hw);
    clear Hw Hij;
    first [ edge_axis_at 0%nat | edge_axis_at 1%nat
          | edge_axis_at 2%nat | edge_axis_at 3%nat ].
Qed.

Lemma same_value_zero_add (a : float) : Spec.same_value (0 + a)%float a = true.
Proof. apply same_value_norm. now apply add_zero_l_norm. Qed.

(** X14. The two handlers in sequence: the cube of [GET /shapes/cube], sent
    to [POST /shapes/transform], comes back with its 16 vertices and its 32
    well-formed edges, at the position of the translation (each coordinate
    equal, as a value, to the translation's), whatever the size and the
    rotation angles. *)
Theorem transform_fresh_cube (size : float) (transform : Backend.Transform4D) :
  Backend.vertices (Api.transform_shape (Api.get_4d_cube size) transform)
    = Backend.vertices (Backend.create_4d_cube size) /\
  List.length
    (Backend.vertices (Api.transform_shape (Api.get_4d_cube size) transform))
    = 16%nat /\
  List.length
    (Backend.edges (Api.transform_shape (Api.get_4d_cube size) transform))
    = 32%nat /\
  Spec.edges_valid (Api.transform_shape (Api.get_4d_cube size) transform) = true /\
  Spec.same_vector
    (Backend.position (Api.transform_shape (Api.get_4d_cube size) transform))
    (Backend.translation transform) = true.
Proof.
  split; [reflexivity|].
  split; [apply backend_vertices_length|].
  split; [vm_compute; reflexivity|].
  split; [vm_compute; reflexivity|].
  unfold Spec.same_vector, Api.transform_shape, Api.get_4d_cube,
    Backend.apply_transform.
  cbn [Backend.position Backend.create_4d_cube Backend.zero_vector
       Backend.x Backend.y Backend.z Backend.w].
  rewrite !same_value_zero_add. reflexivity.
Qed.

Lemma returns_project (x y z w distance : float) :
  Notions.returns (Math4d.project_4d_to_3d (x, y, z, w) distance)
  = negb ((distance =? w)%float && is_finite distance).
Proof.
  rewrite project_cases.
  destruct ((distance =? w)%float && is_finite distance); reflexivity.
Qed.

Lemma forallb_pointwise {T : Type} (f g : T -> bool) (l : list T) :
  (forall a, f a = g a) -> forallb f l = forallb g l.
Proof. intros H. induction l as [|a l IH]; cbn; [reflexivity|now rewrite H, IH]. Qed.

Lemma forallb_over_map {T U : Type} (f : U -> bool) (g : T -> U) (l : list T) :
  forallb f (map g l) = forallb (fun a => f (g a)) l.
Proof. induction l as [|a l IH]; cbn; [reflexivity|now rewrite IH]. Qed.

(** X15. Projecting the 16 vertices of the hypercube: every projection
    returns, unless the viewer distance is finite and equal to [size] or to
    [-size], the two values that [w] takes on the vertices; then the
    projection of one of the vertices raises. *)
Theorem project_cube_vertices (size distance : float) :
  forallb (fun v => Notions.returns (Math4d.project_4d_to_3d v distance))
          (Math4d.create_4d_cube_vertices size)
  = negb (is_finite distance
          && ((distance =? size)%float || (distance =? - size)%float)).
Proof.
  rewrite shared_vertices_map, forallb_over_map.
  rewrite (forallb_pointwise _
             (fun i => negb ((distance =? Spec.coord size i 3)%float
                             && is_finite distance)))
    by (intros i; apply returns_project).
  cbv -[PrimFloat.eqb is_finite PrimFloat.opp].
  destruct (distance =? size)%float, (distance =? - size)%float,
    (is_finite distance); reflexivity.
Qed.

(** X16. The edges in closed form: [(i, j)] is an edge exactly when [i] is
    a vertex number whose bit [k] is clear, for one of the four bits, and
    [j = i + 2^k]. *)
Theorem cube_edges_closed_form (i j : Z) :
  In (i, j) Math4d.create_4d_cube_edges
  <-> exists k, 0 <= k < 4 /\ 0 <= i < 16 /\ Z.testbit i k = false /\ j = i + 2 ^ k.
Proof.
  rewrite in_shared_edges. split.
  - intros [i' [j' [Heq [Hi [Hij [Hj Hw]]]]]]. injection Heq as Ei Ej. subst i' j'.
    assert (Ci : i = 0 \/ i = 1 \/ i = 2 \/ i = 3 \/ i = 4 \/ i = 5 \/ i = 6 \/ i = 7 \/
                 i = 8 \/ i = 9 \/ i = 10 \/ i = 11 \/ i = 12 \/ i = 13 \/ i = 14 \/
                 i = 15) by lia.
    assert (Cj : j = 0 \/ j = 1 \/ j = 2 \/ j = 3 \/ j = 4 \/ j = 5 \/ j = 6 \/ j = 7 \/
                 j = 8 \/ j = 9 \/ j = 10 \/ j = 11 \/ j = 12 \/ j = 13 \/ j = 14 \/
                 j = 15) by lia.
    clear Hi Hj.
    repeat (destruct Ci as [->|Ci]); try subst i;
      repeat (destruct Cj as [->|Cj]); try subst j;
      try (exfalso; lia);
      try (vm_compute in Hw; discriminate Hw);
      first [ exists 0; now vm_compute | exists 1; now vm_compute
            | exists 2; now vm_compute | exists 3; now vm_compute ].
  - intros [k [Hk [Hi [Hbit ->]]]].
    exists i, (i + 2 ^ k). split; [reflexivity|].
    assert (Ck : k = 0 \/ k = 1 \/ k = 2 \/ k = 3) by lia.
    assert (Ci : i = 0 \/ i = 1 \/ i = 2 \/ i = 3 \/ i = 4 \/ i = 5 \/ i = 6 \/ i = 7 \/
                 i = 8 \/ i = 9 \/ i = 10 \/ i = 11 \/ i = 12 \/ i = 13 \/ i = 14 \/
                 i = 15) by lia.
    clear Hk Hi.
    destruct Ck as [-> | [-> | [-> | ->]]];
      repeat (destruct Ci as [->|Ci]); try subst i;
      try discriminate Hbit;
      vm_compute; repeat split; discriminate.
Qed.
